(** * terraformer-ts: the resource-to-configuration pipeline

    A shallow embedding of the TypeScript sources
    - [src/core/provider.ts]        (BaseService: createResource, sanitizeName)
    - [src/core/hcl-generator.ts]   (HclGenerator: both renderers)
    - [src/core/terraformer.ts]     (Terraformer: import, applyFilters)
    - [src/providers/aws/services/] (parseFilter and the postConvertHook of
      the EC2, IAM, SNS and Route53 services)
    followed by the properties of the specification that were checked
    against it.

    Conventions of the embedding.
    - A JavaScript string is a [string]: a sequence of code units, of
      which the range 0..255 is represented.
    - A JavaScript number is an integer [Z] (the sources only produce
      counts, ports and time-to-live values at the places modelled here).
    - A JavaScript object used as a record ([attributes],
      [additionalFields]) is the list of its own properties in the order
      [Object.entries] enumerates them.
    - An exception is [None] in the [option] monad.
    - [Math.random] is an explicit argument. *)

From Stdlib Require Import ZArith Ascii String List Bool Lia DecimalString.
From stdpp Require Import base option list strings.

Local Open Scope bool_scope.
#[local] Arguments String.append !s1 s2 : simpl nomatch.
Set Warnings "-register-all".

(** Sequencing of steps that may throw: [None] is the exception. *)
Notation "'let?' x ':=' m 'in' k" :=
  (match m with Some x => k | None => None end)
  (at level 10, x name, m at level 100, k at level 200, only parsing).

(** ** JavaScript strings *)

Module JsString.

Definition nl : string := String (ascii_of_nat 10) EmptyString.
Definition dquote : string := String (ascii_of_nat 34) EmptyString.
Definition backslash : string := String (ascii_of_nat 92) EmptyString.

Definition code (c : ascii) : N := N_of_ascii c.

Definition inRange (lo hi : N) (c : ascii) : bool :=
  (lo <=? code c)%N && (code c <=? hi)%N.

(** [0-9], [a-z], [A-Z] *)
Definition isDigit : ascii -> bool := inRange 48 57.
Definition isLowerAZ : ascii -> bool := inRange 97 122.
Definition isUpperAZ : ascii -> bool := inRange 65 90.

(** [String.prototype.toLowerCase] on one code unit below 256: the
    letters A-Z and the Latin-1 capitals U+00C0..U+00DE (U+00D7, the
    multiplication sign, apart) move up by 32. *)
Definition isUpper (c : ascii) : bool :=
  isUpperAZ c || (inRange 192 222 c && negb (code c =? 215)%N).

Definition toLowerCaseChar (c : ascii) : ascii :=
  if isUpper c then ascii_of_N (code c + 32) else c.

Fixpoint toLowerCase (s : string) : string :=
  match s with
  | EmptyString => EmptyString
  | String c t => String (toLowerCaseChar c) (toLowerCase t)
  end.

(** [s.startsWith(p)] *)
Definition startsWith (p s : string) : bool := String.prefix p s.

(** [s.includes(p)] *)
Fixpoint includes (p s : string) : bool :=
  String.prefix p s ||
  match s with
  | EmptyString => false
  | String _ t => includes p t
  end.

(** [s.substring(n)] *)
Fixpoint substring (n : nat) (s : string) : string :=
  match n, s with
  | O, _ => s
  | S _, EmptyString => EmptyString
  | S m, String _ t => substring m t
  end.

(** [s.split(sep)] for a separator of one character: never empty. *)
Fixpoint split (sep : ascii) (s : string) : list string :=
  match s with
  | EmptyString => [EmptyString]
  | String c t =>
      if Ascii.eqb c sep then EmptyString :: split sep t
      else match split sep t with
           | h :: r => String c h :: r
           | [] => [String c EmptyString]
           end
  end.

(** [l.join(sep)] on an array of strings *)
Definition join (sep : string) (l : list string) : string := String.concat sep l.

(** [c] occurs in [s] *)
Fixpoint hasChar (c : ascii) (s : string) : bool :=
  match s with
  | EmptyString => false
  | String d t => Ascii.eqb d c || hasChar c t
  end.

(** The replacement text of [String.prototype.replace] (GetSubstitution
    of ECMA-262) for a pattern without capture groups: in the template,
    [$$] stands for one dollar sign, [$&] for the matched text, [$`] for
    the text before the match and [$'] for the text after it; a dollar
    sign before anything else stands for itself. *)
Fixpoint getSubstitution (matched before after template : string) : string :=
  match template with
  | EmptyString => EmptyString
  | String c t =>
      if Ascii.eqb c "$" then
        match t with
        | EmptyString => String c EmptyString
        | String d t' =>
            if Ascii.eqb d "$" then String "$" (getSubstitution matched before after t')
            else if Ascii.eqb d "&" then matched +:+ getSubstitution matched before after t'
            else if Ascii.eqb d "`" then before +:+ getSubstitution matched before after t'
            else if Ascii.eqb d "'" then after +:+ getSubstitution matched before after t'
            else String c (getSubstitution matched before after t)
        end
      else String c (getSubstitution matched before after t)
  end.

(** [s.replace(/X/g, template)] where the pattern [/X/] matches exactly
    the single characters satisfying [cls]. [before] is the text already
    scanned. *)
Fixpoint replaceCharsFrom (cls : ascii -> bool) (template before s : string) : string :=
  match s with
  | EmptyString => EmptyString
  | String c t =>
      let one := String c EmptyString in
      (if cls c then getSubstitution one before t template else one)
        +:+ replaceCharsFrom cls template (before +:+ one) t
  end.

Definition replaceChars (cls : ascii -> bool) (template s : string) : string :=
  replaceCharsFrom cls template EmptyString s.

(** [s.replace(/\$\{/g, template)]: every occurrence of the two
    characters dollar, opening brace, scanning from the left. *)
Fixpoint replaceDollarBraceFrom (template before s : string) : string :=
  match s with
  | EmptyString => EmptyString
  | String c t =>
      match t with
      | EmptyString => String c EmptyString
      | String d t' =>
          if Ascii.eqb c "$" && Ascii.eqb d "{" then
            getSubstitution "${" before t' template
              +:+ replaceDollarBraceFrom template (before +:+ "${") t'
          else
            String c (replaceDollarBraceFrom template (before +:+ String c EmptyString) t)
      end
  end.

Definition replaceDollarBrace (template s : string) : string :=
  replaceDollarBraceFrom template EmptyString s.

(** [s.replace(/^[0-9]/, template)]: only a digit in first position. *)
Definition replaceLeadingDigit (template s : string) : string :=
  match s with
  | EmptyString => EmptyString
  | String c t =>
      if isDigit c then getSubstitution (String c EmptyString) EmptyString t template +:+ t
      else s
  end.

(** [String(n)] for a number that holds the integer [z] exactly: the
    decimal digits of [z], with a minus sign below zero. This is the
    text JavaScript prints for the safe integers, those of magnitude at
    most [2^53 - 1]; beyond them a number is a rounded double, printed
    from its shortest digits and in exponent notation from [1e21] on,
    which is not modelled here (see [safeNumbers] below). *)
Definition ofZ (z : Z) : string := NilEmpty.string_of_int (Z.to_int z).

End JsString.

(** ** JavaScript values and objects *)

Module Js.
Import JsString.

(** The values an attribute holds: a recursive JSON-like type, with
    [undefined] beside [null]. *)
Inductive value : Type :=
| VUndefined
| VNull
| VBool (b : bool)
| VNum (z : Z)
| VStr (s : string)
| VArr (items : list value)
| VObj (fields : list (string * value)).

(** The own properties of an object, in enumeration order. *)
Definition props (A : Type) : Type := list (string * A).
Definition obj : Type := props value.

(** Truthiness, as [if (v)] and [!v] see it. *)
Definition truthy (v : value) : bool :=
  match v with
  | VUndefined | VNull => false
  | VBool b => b
  | VNum z => negb (z =? 0)%Z
  | VStr s => negb (String.eqb s EmptyString)
  | VArr _ | VObj _ => true
  end.

(** [a === b]. Arrays and objects compare by identity; two values met
    in different records are different objects. *)
Definition strictEq (a b : value) : bool :=
  match a, b with
  | VUndefined, VUndefined => true
  | VNull, VNull => true
  | VBool x, VBool y => Bool.eqb x y
  | VNum x, VNum y => (x =? y)%Z
  | VStr x, VStr y => String.eqb x y
  | _, _ => false
  end.

(** A property key is an array index when it is the canonical decimal
    form of an integer below 2^32 - 1; [Object.entries] lists such keys
    first, in ascending order, then the others in creation order. *)
Fixpoint digitsValue (acc : N) (s : string) : option N :=
  match s with
  | EmptyString => Some acc
  | String c t =>
      if isDigit c then digitsValue (acc * 10 + (code c - 48))%N t else None
  end.

Definition arrayIndex (k : string) : option N :=
  match k with
  | EmptyString => None
  | String c t =>
      if Ascii.eqb c "0" && negb (String.eqb t EmptyString) then None
      else match digitsValue 0 k with
           | Some n => if (n <? 4294967295)%N then Some n else None
           | None => None
           end
  end.

Section Props.
Context {A : Type}.

(** [o[k]], [None] standing for [undefined] *)
Fixpoint lookupProp (k : string) (o : props A) : option A :=
  match o with
  | [] => None
  | (k', v) :: t => if String.eqb k' k then Some v else lookupProp k t
  end.

Definition hasProp (k : string) (o : props A) : bool :=
  match lookupProp k o with Some _ => true | None => false end.

Fixpoint updateProp (k : string) (v : A) (o : props A) : props A :=
  match o with
  | [] => []
  | (k', v') :: t =>
      if String.eqb k' k then (k, v) :: t else (k', v') :: updateProp k v t
  end.

Fixpoint insertIndexProp (n : N) (k : string) (v : A) (o : props A) : props A :=
  match o with
  | [] => [(k, v)]
  | (k', v') :: t =>
      match arrayIndex k' with
      | Some m => if (m <? n)%N then (k', v') :: insertIndexProp n k v t
                  else (k, v) :: o
      | None => (k, v) :: o
      end
  end.

(** [o[k] = v] *)
Definition setProp (k : string) (v : A) (o : props A) : props A :=
  if hasProp k o then updateProp k v o
  else match arrayIndex k with
       | Some n => insertIndexProp n k v o
       | None => o ++ [(k, v)]
       end.

(** [delete o[k]] *)
Fixpoint deleteProp (k : string) (o : props A) : props A :=
  match o with
  | [] => []
  | (k', v') :: t =>
      if String.eqb k' k then t else (k', v') :: deleteProp k t
  end.

(** [{ ...a, ...b }] *)
Definition assignAll (target source : props A) : props A :=
  fold_left (fun acc kv => setProp (fst kv) (snd kv) acc) source target.

Definition spread (a b : props A) : props A := assignAll (assignAll [] a) b.

(** [Object.entries(o)] *)
Definition entries (o : props A) : list (string * A) := o.

End Props.

(** [o.k] on a record of values *)
Definition getProp (k : string) (o : obj) : value :=
  match lookupProp k o with Some v => v | None => VUndefined end.

(** [v.length === 0]: the length of a string or of an array, the
    property [length] of an object, [undefined] on the other values. *)
Definition lengthIsZero (v : value) : bool :=
  match v with
  | VStr s => Nat.eqb (String.length s) 0
  | VArr l => Nat.eqb (length l) 0
  | VObj fields => strictEq (getProp "length" fields) (VNum 0)
  | _ => false
  end.

(** An object literal [{ k1: v1, k2: v2, ... }] *)
Definition literal (l : list (string * value)) : obj := assignAll [] l.

(** The members of [Object.prototype]. On a plain object [{}] without
    an own property [k], the read [o[k]] finds the inherited member
    under these keys: a function or, under [__proto__], the prototype
    itself, in each case a truthy value that is no array. *)
Definition objectPrototypeKeys : list string :=
  ["constructor"; "__defineGetter__"; "__defineSetter__"; "hasOwnProperty";
   "__lookupGetter__"; "__lookupSetter__"; "isPrototypeOf";
   "propertyIsEnumerable"; "toString"; "valueOf"; "__proto__";
   "toLocaleString"].

Definition inherited (k : string) : bool :=
  existsb (String.eqb k) objectPrototypeKeys.

(** [Number.isSafeInteger(n)] for an integer: the range in which a
    JavaScript number holds every integer exactly and [String] prints
    its digits. *)
Definition isSafeInteger (z : Z) : bool := (Z.abs z <=? 9007199254740991)%Z.

(** Every number inside the value is a safe integer. *)
Fixpoint safeNumbers (v : value) : bool :=
  match v with
  | VNum z => isSafeInteger z
  | VArr items => forallb safeNumbers items
  | VObj fields => forallb (fun kv => let '(_, x) := kv in safeNumbers x) fields
  | _ => true
  end.

End Js.

(** ** The resource record and the service base class
    ([src/types], [src/core/provider.ts]) *)

Module Core.
Import JsString Js.

(** [TerraformResource]. The optional members [dependencies],
    [ignoreKeys], [allowEmptyValues] and [additionalFields] are read only
    through [?.], [||] and object spread, which treat an absent member as
    an empty one; they are held here as possibly empty lists. *)
Record TerraformResource : Type := mkResource {
  res_id : string;
  res_type : string;
  res_name : string;
  res_provider : string;
  attributes : obj;
  dependencies : list string;
  ignoreKeys : list string;
  allowEmptyValues : list string;
  additionalFields : obj
}.

Definition withAttributes (r : TerraformResource) (a : obj) : TerraformResource :=
  mkResource (res_id r) (res_type r) (res_name r) (res_provider r) a
    (dependencies r) (ignoreKeys r) (allowEmptyValues r) (additionalFields r).

(** [ResourceFilter]; [isApplicable] is the closure over [serviceName]
    that every [parseFilter] builds. *)
Record ResourceFilter : Type := mkFilter {
  serviceName : string;
  fieldPath : string;
  acceptableValues : list string
}.

Definition isApplicable (f : ResourceFilter) (resourceName : string) : bool :=
  String.eqb (serviceName f) EmptyString || String.eqb (serviceName f) resourceName.

(** The character class [a-zA-Z0-9_-] *)
Definition isNameChar (c : ascii) : bool :=
  isLowerAZ c || isUpperAZ c || isDigit c || Ascii.eqb c "_" || Ascii.eqb c "-".

(** The character class [^a-zA-Z0-9_-] *)
Definition invalidChar (c : ascii) : bool := negb (isNameChar c).

(** [BaseService.sanitizeName] *)
Definition sanitizeName (name : string) : string :=
  toLowerCase
    (replaceLeadingDigit "_$&" (replaceChars invalidChar "_" name)).

(** [BaseService.createResource] *)
Definition createResource (providerName id name type : string)
    (attrs additional : obj) : TerraformResource :=
  mkResource id (providerName +:+ "_" +:+ type) (sanitizeName name) providerName
    attrs [] [] [] additional.

(** The regular expression [^[_a-zA-Z][_a-zA-Z0-9-]*$] *)
Definition isIdentStart (c : ascii) : bool :=
  Ascii.eqb c "_" || isLowerAZ c || isUpperAZ c.

Fixpoint allChars (p : ascii -> bool) (s : string) : bool :=
  match s with
  | EmptyString => true
  | String c t => p c && allChars p t
  end.

Definition matchesIdentifier (s : string) : bool :=
  match s with
  | EmptyString => false
  | String c t =>
      isIdentStart c &&
      allChars (fun d => isIdentStart d || isDigit d || Ascii.eqb d "-") t
  end.

(** No character of [s] is a capital letter. *)
Definition isLowercase (s : string) : bool := allChars (fun c => negb (isUpper c)) s.

End Core.

(** ** The service adapters ([src/providers/aws/services/]) *)

Module Services.
Import JsString Js Core.

(** [parseFilter], word for word the same in the EC2, IAM, SNS, SQS, S3,
    RDS and Route53 services. The array destructuring
    [const [serviceName, resourcesId] = rawFilter.split('=')] keeps the
    first two pieces; [resourcesId.split] on a missing second piece would
    be a TypeError. *)
Definition parseFilter (rawFilter : string) : option (list ResourceFilter) :=
  if negb (includes "Name=" rawFilter) && includes "=" rawFilter then
    match split "=" rawFilter with
    | serviceName :: resourcesId :: _ =>
        Some [mkFilter serviceName "id" (split ":" resourcesId)]
    | _ => None
    end
  else
    let parts := split ";" rawFilter in
    if (1 <=? length parts)%nat then
      match parts with
      | [] => None
      | part0 :: rest =>
          let serviceName :=
            if startsWith "Type=" part0 then substring 5 part0 else EmptyString in
          let fieldPath :=
            match rest with
            | part1 :: _ => if startsWith "Name=" part1 then substring 5 part1 else part0
            | [] => part0
            end in
          let acceptableValues :=
            match rest with
            | _ :: part2 :: _ =>
                if startsWith "Value=" part2 then split ":" (substring 6 part2) else []
            | _ => []
            end in
          Some [mkFilter serviceName fieldPath acceptableValues]
      end
    else Some [].

(** [parseFilter] of the services that are not implemented yet
    (Kinesis, ECS, ...). *)
Definition parseFilterStub (rawFilter : string) : option (list ResourceFilter) :=
  Some [].

(** The heredoc the hooks build with a template literal. *)
Definition heredoc (policy : string) : string :=
  "<<POLICY" +:+ nl +:+ policy +:+ nl +:+ "POLICY".

(** [escapeAwsInterpolation] (IAM, SNS, SQS): [policy.replace(/\$\{/g, '$${')].
    On a value that is no string, [replace] is not a function. *)
Definition escapeAwsInterpolation (policy : value) : option string :=
  match policy with
  | VStr s => Some (replaceDollarBrace "$${" s)
  | _ => None
  end.

Definition wrapPolicy (key : string) (resource : TerraformResource)
    : option TerraformResource :=
  let? policy := escapeAwsInterpolation (getProp key (attributes resource)) in
  Some (withAttributes resource
          (setProp key (VStr (heredoc policy)) (attributes resource))).

(** Body of the loop of [IAMService.postConvertHook] *)
Definition iamStep (resource : TerraformResource) : option TerraformResource :=
  if String.eqb (res_type resource) "aws_iam_policy"
     || String.eqb (res_type resource) "aws_iam_user_policy"
     || String.eqb (res_type resource) "aws_iam_group_policy"
     || String.eqb (res_type resource) "aws_iam_role_policy"
  then
    if truthy (getProp "policy" (attributes resource))
    then wrapPolicy "policy" resource
    else Some resource
  else if String.eqb (res_type resource) "aws_iam_role"
          && truthy (getProp "assume_role_policy" (attributes resource))
  then wrapPolicy "assume_role_policy" resource
  else if String.eqb (res_type resource) "aws_iam_instance_profile"
  then Some (withAttributes resource (deleteProp "roles" (attributes resource)))
  else Some resource.

Definition IAM_postConvertHook (resources : list TerraformResource)
    : option (list TerraformResource) :=
  mapM iamStep resources.

(** Body of the loop of [SNSService.postConvertHook] *)
Definition snsStep (resource : TerraformResource) : option TerraformResource :=
  if String.eqb (res_type resource) "aws_sns_topic"
     && truthy (getProp "policy" (attributes resource))
  then wrapPolicy "policy" resource
  else Some resource.

Definition SNS_postConvertHook (resources : list TerraformResource)
    : option (list TerraformResource) :=
  mapM snsStep resources.

(** [EC2Service.postConvertHook] only logs. *)
Definition EC2_postConvertHook (resources : list TerraformResource)
    : option (list TerraformResource) :=
  Some resources.

(** [Route53Service.postConvertHook]. The hook walks [this.resources]
    and changes the records in place while the inner loop reads the same
    array: [route53Step] is the body of the outer loop, run on the
    resource at one index with the array as it is at that moment. *)
Definition isZoneFor (zoneId : value) (zoneResource : TerraformResource) : bool :=
  String.eqb (res_type zoneResource) "aws_route53_zone"
  && strictEq (getProp "zone_id" (additionalFields zoneResource)) zoneId.

(** What the inner loop reads of the resources it walks. *)
Definition zoneView (resource : TerraformResource) : string * string * obj :=
  (res_type resource, res_name resource, additionalFields resource).

Definition zoneReference (zoneResource : TerraformResource) : string :=
  "${aws_route53_zone." +:+ res_name zoneResource +:+ ".zone_id}".

Definition route53Record (resources : list TerraformResource)
    (resource : TerraformResource) : TerraformResource :=
  let zoneId := getProp "zone_id" (attributes resource) in
  let attrs1 :=
    match List.find (isZoneFor zoneId) resources with
    | Some zoneResource =>
        setProp "zone_id" (VStr (zoneReference zoneResource)) (attributes resource)
    | None => attributes resource
    end in
  let attrs2 :=
    if truthy (getProp "alias" (additionalFields resource))
    then deleteProp "ttl" attrs1 else attrs1 in
  withAttributes resource attrs2.

Definition route53HealthCheck (resource : TerraformResource) : TerraformResource :=
  let children := getProp "child_healthchecks" (additionalFields resource) in
  if negb (truthy children) || lengthIsZero children then
    if truthy (getProp "child_health_threshold" (additionalFields resource))
    then withAttributes resource
           (deleteProp "child_health_threshold" (attributes resource))
    else resource
  else resource.

Definition route53Step (resources : list TerraformResource)
    (resource : TerraformResource) : TerraformResource :=
  let r1 :=
    if String.eqb (res_type resource) "aws_route53_record"
    then route53Record resources resource else resource in
  if String.eqb (res_type r1) "aws_route53_health_check"
  then route53HealthCheck r1 else r1.

(** The outer loop from index [i], [n] elements to go. *)
Fixpoint route53Loop (n i : nat) (resources : list TerraformResource)
    : list TerraformResource :=
  match n with
  | O => resources
  | S n' =>
      match resources !! i with
      | Some resource =>
          route53Loop n' (S i) (<[i := route53Step resources resource]> resources)
      | None => resources
      end
  end.

Definition Route53_postConvertHook (resources : list TerraformResource)
    : option (list TerraformResource) :=
  Some (route53Loop (length resources) 0 resources).

(** The registry of adapters, as far as the properties below need it. *)
Inductive ServiceKind : Type :=
| EC2Service | IAMService | SNSService | Route53Service | KinesisService.

Definition serviceParseFilter (k : ServiceKind) : string -> option (list ResourceFilter) :=
  match k with
  | KinesisService => parseFilterStub
  | _ => parseFilter
  end.

Definition postConvertHook (k : ServiceKind) (resources : list TerraformResource)
    : option (list TerraformResource) :=
  match k with
  | EC2Service => EC2_postConvertHook resources
  | IAMService => IAM_postConvertHook resources
  | SNSService => SNS_postConvertHook resources
  | Route53Service => Route53_postConvertHook resources
  | KinesisService => Some resources
  end.

End Services.

(** ** The two renderers ([src/core/hcl-generator.ts]) *)

Module HclGenerator.
Import JsString Js Core.

(** A loop whose body may throw. *)
Fixpoint foldM {A S : Type} (f : S -> A -> option S) (l : list A) (s : S) : option S :=
  match l with
  | [] => Some s
  | x :: t => let? s' := f s x in foldM f t s'
  end.

(** [type.replace(`${provider}_`, '')]: the first occurrence of a
    literal pattern is removed. *)
Fixpoint removeFirst (p s : string) : string :=
  if String.prefix p s then substring (String.length p) s
  else match s with
       | EmptyString => EmptyString
       | String c t => String c (removeFirst p t)
       end.

Definition typeKey (resource : TerraformResource) : string :=
  removeFirst (res_provider resource +:+ "_") (res_type resource).

(** The body of the loop of [groupResourcesByType]. [grouped] is a
    plain object that starts as [{}]: [grouped[type]] is the own array
    when there is one, and otherwise the inherited member when the key
    names a member of [Object.prototype]. That member is truthy, so no
    array is stored, and it has no [push]: the call throws a TypeError. *)
Definition groupStep (grouped : props (list TerraformResource))
    (resource : TerraformResource) : option (props (list TerraformResource)) :=
  let type := typeKey resource in
  let grouped1 :=
    if hasProp type grouped || inherited type then grouped
    else setProp type [] grouped in
  match lookupProp type grouped1 with
  | Some l => Some (setProp type (l ++ [resource]) grouped1)
  | None => None
  end.

(** [groupResourcesByType] *)
Definition groupResourcesByType (resources : list TerraformResource)
    : option (props (list TerraformResource)) :=
  foldM groupStep resources [].

(** [formatHclValue] *)
Definition escapeString (s : string) : string :=
  replaceChars (fun c => Ascii.eqb c (ascii_of_nat 10)) (backslash +:+ "n")
    (replaceChars (fun c => Ascii.eqb c (ascii_of_nat 34)) (backslash +:+ dquote) s).

Fixpoint formatHclValue (v : value) : string :=
  match v with
  | VUndefined | VNull => "null"
  | VStr s => dquote +:+ escapeString s +:+ dquote
  | VNum z => ofZ z
  | VBool b => if b then "true" else "false"
  | VArr items => "[" +:+ join ", " (map formatHclValue items) +:+ "]"
  | VObj fields =>
      "{" +:+ nl +:+ "    "
      +:+ join ("," +:+ nl +:+ "    ")
            (map (fun kv => let '(k, x) := kv in k +:+ " = " +:+ formatHclValue x) fields)
      +:+ nl +:+ "  }"
  end.

Definition isEmptyValue (v : value) : bool :=
  match v with
  | VNull | VUndefined => true
  | VStr s => String.eqb s EmptyString
  | _ => false
  end.

Section Renderer.

(** [new RegExp(pattern)]: a SyntaxError ([None]) or a compiled
    expression, of which only [test] is used. *)
Variable RegExp : string -> option (string -> bool).

(** [patterns.some(pattern => new RegExp(pattern).test(key))] *)
Fixpoint someTest (patterns : list string) (key : string) : option bool :=
  match patterns with
  | [] => Some false
  | pattern :: rest =>
      match RegExp pattern with
      | Some test => if test key then Some true else someTest rest key
      | None => None
      end
  end.

(** [shouldIncludeAttribute] *)
Definition shouldIncludeAttribute (key : string) (v : value)
    (resource : TerraformResource) : option bool :=
  let? ignored := someTest (ignoreKeys resource) key in
  if ignored then Some false
  else if isEmptyValue v then
    let? allowed := someTest (allowEmptyValues resource) key in
    if allowed then Some true else Some false
  else Some true.

Definition attributeLine (key : string) (v : value) : string :=
  "  " +:+ key +:+ " = " +:+ formatHclValue v +:+ nl.

Definition resourceHeader (resource : TerraformResource) : string :=
  "resource " +:+ dquote +:+ res_type resource +:+ dquote +:+ " "
  +:+ dquote +:+ res_name resource +:+ dquote +:+ " {" +:+ nl.

Definition appendAttribute (resource : TerraformResource) (hcl : string)
    (kv : string * value) : option string :=
  let? include := shouldIncludeAttribute (fst kv) (snd kv) resource in
  Some (if include then hcl +:+ attributeLine (fst kv) (snd kv) else hcl).

Definition allAttributes (resource : TerraformResource) : obj :=
  spread (attributes resource) (additionalFields resource).

Definition appendResource (hcl : string) (resource : TerraformResource)
    : option string :=
  let? hcl1 := foldM (appendAttribute resource) (entries (allAttributes resource))
         (hcl +:+ resourceHeader resource) in
  Some (hcl1 +:+ "}" +:+ nl +:+ nl).

(** [generateHclResources] *)
Definition generateHclResources (resources : list TerraformResource)
    : option string :=
  let? grouped := groupResourcesByType resources in
  foldM (fun hcl group => foldM appendResource (snd group) hcl)
        (entries grouped) EmptyString.

(** The resource files of the text encoding: [generateCompactResourceFile]
    and [generateSeparateResourceFiles] with [output = 'hcl']. *)
Definition generateCompactResourceFile (resources : list TerraformResource)
    : option (list (string * string)) :=
  let? content := generateHclResources resources in
  Some [("resources.tf", content)].

Definition generateSeparateResourceFiles (resources : list TerraformResource)
    : option (list (string * string)) :=
  let? groupedResources := groupResourcesByType resources in
  mapM (fun group =>
          let? content := generateHclResources (snd group) in
          Some (fst group +:+ ".tf", content))
       (entries groupedResources).

Definition generateResourceFiles (resources : list TerraformResource)
    (isCompact : bool) : option (list (string * string)) :=
  if isCompact then generateCompactResourceFile resources
  else generateSeparateResourceFiles resources.

End Renderer.

(** The resources [generateHclResources] opens a block for, in the
    order of the blocks; none when the grouping throws. *)
Definition emittedResources (resources : list TerraformResource)
    : option (list TerraformResource) :=
  let? grouped := groupResourcesByType resources in
  Some (flat_map snd (entries grouped)).

(** The state document of [generateTerraformState]. *)
Record StateInstance : Type := mkInstance {
  schema_version : Z;
  inst_attributes : obj;
  sensitive_attributes : list value;
  private : string;
  inst_dependencies : list string
}.

Record StateEntry : Type := mkEntry {
  mode : string;
  entry_type : string;
  entry_name : string;
  entry_provider : string;
  instances : list StateInstance
}.

Record TerraformState : Type := mkState {
  version : Z;
  terraform_version : string;
  serial : Z;
  lineage : string;
  outputs : obj;
  state_resources : list StateEntry
}.

Definition stateEntry (privateKey : string) (resource : TerraformResource) : StateEntry :=
  mkEntry "managed" (res_type resource) (res_name resource)
    ("provider[" +:+ dquote +:+ "registry.terraform.io/hashicorp/"
       +:+ res_provider resource +:+ dquote +:+ "]")
    [mkInstance 0 (attributes resource) [] privateKey (dependencies resource)].

(** [generateTerraformState]; [generateLineage ()] and the
    [generatePrivateKey ()] of the resource at each index are given. *)
Definition generateTerraformState (lineageId : string) (privateKeys : nat -> string)
    (resources : list TerraformResource) : TerraformState :=
  mkState 4 "1.0.0" 1 lineageId []
    (imap (fun i resource => stateEntry (privateKeys i) resource) resources).

End HclGenerator.

(** ** The orchestrator ([src/core/terraformer.ts]) *)

Module Terraformer.
Import JsString Js Core Services HclGenerator.

(** The members of [ImportOptions] the pipeline reads; an absent
    [filters] is an empty list. *)
Record ImportOptions : Type := mkOptions {
  filters : list string;
  verbose : bool;
  compact : bool
}.

(** [applyFilters]: each expression is parsed and the result is dropped. *)
Definition applyFilters (k : ServiceKind) (resources : list TerraformResource)
    (rawFilters : list string) : option (list TerraformResource) :=
  let? parsedFilters := mapM (serviceParseFilter k) rawFilters in
  Some resources.

(** The body of the [try] block of [import] for one service;
    [discovered] is what [initResources] left in the service. *)
Definition importService (options : ImportOptions) (k : ServiceKind)
    (discovered : list TerraformResource) : option (list TerraformResource) :=
  let? resources :=
    (if (0 <? length (filters options))%nat
     then applyFilters k discovered (filters options)
     else Some discovered) in
  postConvertHook k resources.

(** The loop of [import] over the services: a service that throws is
    skipped, or ends the run under [verbose]. *)
Fixpoint importServices (options : ImportOptions)
    (services : list (ServiceKind * list TerraformResource))
    (allResources : list TerraformResource) : option (list TerraformResource) :=
  match services with
  | [] => Some allResources
  | (k, discovered) :: rest =>
      match importService options k discovered with
      | Some serviceResources =>
          importServices options rest (allResources ++ serviceResources)
      | None =>
          if verbose options then None
          else importServices options rest allResources
      end
  end.

(** What [generateOutput] writes into one directory, the provider file
    apart. *)
Record ServiceOutput : Type := mkOutput {
  out_service : string;
  out_files : list (string * string);
  out_state : TerraformState
}.

Section Output.
Variable RegExp : string -> option (string -> bool).
Variable lineageOf : string -> string.
Variable privateKeyOf : string -> nat -> string.

(** [groupResourcesByService] has the text of [groupResourcesByType]. *)
Definition groupResourcesByService := groupResourcesByType.

Definition generateOutput (resources : list TerraformResource)
    (options : ImportOptions) : option (list ServiceOutput) :=
  let? resourcesByService := groupResourcesByService resources in
  mapM (fun group =>
          let? files := generateResourceFiles RegExp (snd group) (compact options) in
          Some (mkOutput (fst group) files
                  (generateTerraformState (lineageOf (fst group))
                     (privateKeyOf (fst group)) (snd group))))
       (entries resourcesByService).

(** [import] in the text encoding *)
Definition import (options : ImportOptions)
    (services : list (ServiceKind * list TerraformResource))
    : option (list ServiceOutput) :=
  let? allResources := importServices options services [] in
  generateOutput allResources options.

End Output.

End Terraformer.

(** ** The evaluation rule of the filter engine *)

Module FilterRule.
Import JsString Js Core.

(** No function of the sources evaluates a [ResourceFilter]:
    [applyFilters] drops the parsed predicates. The rule below is the
    one of section 4.1 of the specification. *)

(** Modelled from the spec: the evaluation of predicates is missing from
    the sources; the values found at the field path intersect the
    acceptable values. *)
Definition intersects (values acceptable : list string) : bool :=
  existsb (fun v => existsb (String.eqb v) acceptable) values.

(** Modelled from the spec: the evaluation of predicates is missing from
    the sources; a resource passes a filter iff the filter is not
    applicable to the category of the resource or the values at
    [fieldPath] intersect [acceptableValues]. *)
Definition passesWith (f : ResourceFilter) (category : string)
    (values : list string) : bool :=
  negb (isApplicable f category) || intersects values (acceptableValues f).

(** Modelled from the spec: the lookup of a field path is missing from
    the sources; a scalar is compared through its text. *)
Definition scalarText (v : value) : list string :=
  match v with
  | VStr s => [s]
  | VNum z => [ofZ z]
  | VBool b => [if b then "true" else "false"]
  | _ => []
  end.

(** Modelled from the spec: the lookup of a field path is missing from
    the sources; a dotted path is followed through the nested mappings,
    one segment per dot, and ends at a scalar or at a list of scalars. *)
Fixpoint valuesAt (segments : list string) (v : value) : list string :=
  match segments with
  | [] =>
      match v with
      | VArr items => flat_map scalarText items
      | _ => scalarText v
      end
  | seg :: rest =>
      match v with
      | VObj fields =>
          match lookupProp seg fields with
          | Some x => valuesAt rest x
          | None => []
          end
      | _ => []
      end
  end.

(** Modelled from the spec: the lookup of a field path is missing from
    the sources; the path [id] names the identifier of the resource, any
    other path is looked up in [attributes]. *)
Definition fieldValues (resource : TerraformResource) (path : string) : list string :=
  if String.eqb path "id" then [res_id resource]
  else valuesAt (split "." path) (VObj (attributes resource)).

(** Modelled from the spec: the evaluation of predicates is missing from
    the sources; one filter on one resource. *)
Definition passes (category : string) (resource : TerraformResource)
    (f : ResourceFilter) : bool :=
  passesWith f category (fieldValues resource (fieldPath f)).

(** Modelled from the spec: the evaluation of predicates is missing from
    the sources; several filters are combined by conjunction. *)
Definition survives (category : string) (fs : list ResourceFilter)
    (resource : TerraformResource) : bool :=
  forallb (passes category resource) fs.

End FilterRule.

Import JsString Js Core Services HclGenerator Terraformer FilterRule.

(** ** The field-inclusion policy, in the words of the specification *)

Module FieldPolicy.

Section Policy.
Variable RegExp : string -> option (string -> bool).

(** Modelled from the spec: sections 3 and 4.3, the key matches one of
    the patterns of the list. *)
Definition matchesAny (patterns : list string) (key : string) : bool :=
  existsb (fun pattern =>
             match RegExp pattern with
             | Some test => test key
             | None => false
             end) patterns.

(** Modelled from the spec: section 4.3, an empty value is null, an
    absent value or the empty string. *)
Definition emptyValue (v : value) : bool :=
  match v with
  | VNull => true
  | VUndefined => true
  | VStr EmptyString => true
  | _ => false
  end.

(** Modelled from the spec: section 4.3, a field is dropped if its key
    matches a pattern of [ignoreKeys]; a field with an empty value is
    dropped unless its key matches a pattern of [allowEmptyValues]; any
    other field is emitted. *)
Definition emitted (resource : TerraformResource) (key : string) (v : value) : bool :=
  if matchesAny (ignoreKeys resource) key then false
  else if emptyValue v then matchesAny (allowEmptyValues resource) key
  else true.

(** Modelled from the spec: section 4.3, a field of a block reads
    [<field> = <value>], here on a line of its own after two spaces. *)
Definition fieldLine (key : string) (v : value) : string :=
  "  " +:+ key +:+ " = " +:+ formatHclValue v +:+ nl.

(** Modelled from the spec: section 4.3, the fields of a block are the
    emitted fields of the merged mapping, in its iteration order. *)
Definition emittedLines (resource : TerraformResource)
    (fields : list (string * value)) : string :=
  fold_right
    (fun kv rest =>
       if emitted resource (fst kv) (snd kv)
       then fieldLine (fst kv) (snd kv) +:+ rest else rest)
    EmptyString fields.

(** Modelled from the spec: section 4.3, a block opens with the word
    [resource], the type and the name between double quotes and a
    brace. *)
Definition blockOpening (type name : string) : string :=
  "resource " +:+ dquote +:+ type +:+ dquote +:+ " "
  +:+ dquote +:+ name +:+ dquote +:+ " {" +:+ nl.

(** Modelled from the spec: section 4.3, the block of a resource,
    [resource "<type>" "<name>" { <field> = <value> ... }]. *)
Definition resourceBlock (resource : TerraformResource) : string :=
  blockOpening (res_type resource) (res_name resource)
  +:+ emittedLines resource (entries (allAttributes resource))
  +:+ "}" +:+ nl +:+ nl.

(** Every pattern of the resource is a regular expression. *)
Definition patternsCompile (resource : TerraformResource) : Prop :=
  forall pattern,
    In pattern (ignoreKeys resource ++ allowEmptyValues resource) ->
    exists test, RegExp pattern = Some test.

End Policy.

(** The numbers of the merged mapping are safe integers: the range in
    which [ofZ] is the text [String] prints. *)
Definition safeFields (resource : TerraformResource) : bool :=
  forallb (fun kv => safeNumbers (snd kv)) (entries (allAttributes resource)).

End FieldPolicy.

(** ** Addresses in the state document *)

Module Parity.

(** The state entry is filed under the pair [(type, name)]. *)
Definition sameAddress (type name : string) (e : StateEntry) : bool :=
  String.eqb (entry_type e) type && String.eqb (entry_name e) name.

Definition countEntries (type name : string) (st : TerraformState) : nat :=
  length (List.filter (sameAddress type name) (state_resources st)).

Definition address (resource : TerraformResource) : string * string :=
  (res_type resource, res_name resource).

Definition hasAddress (type name : string) (resource : TerraformResource) : bool :=
  String.eqb (res_type resource) type && String.eqb (res_name resource) name.

End Parity.

Import FieldPolicy Parity.

(** ** Inputs used below *)

Module Examples.

(** A regular-expression engine for the patterns made only of letters,
    digits and underscores: such a pattern matches the keys it occurs
    in. The other patterns are refused. *)
Definition isWordChar (c : ascii) : bool :=
  isLowerAZ c || isUpperAZ c || isDigit c || Ascii.eqb c "_".

Definition literalRegExp (pattern : string) : option (string -> bool) :=
  if allChars isWordChar pattern then Some (includes pattern) else None.

(** Two instances, as [EC2Service.loadInstances] creates them. *)
Definition instance1 : TerraformResource :=
  createResource "aws" "i-1" "web" "instance"
    (literal [("instance_type", VStr "t3.micro")]) (literal [("tags", VArr [])]).

Definition instance3 : TerraformResource :=
  createResource "aws" "i-3" "db" "instance"
    (literal [("instance_type", VStr "t3.small")]) (literal [("tags", VArr [])]).

Definition onlyInstance1 : ImportOptions := mkOptions ["ec2=i-1"] false true.

(** A hosted zone and an alias record of it, as
    [Route53Service.loadHostedZones] and [loadResourceRecordSets] create
    them. *)
Definition zone123 : TerraformResource :=
  createResource "aws" "Z123" "Z123_example.com" "route53_zone"
    (literal [("name", VStr "example.com."); ("force_destroy", VBool false)])
    (literal [("zone_id", VStr "Z123"); ("name_servers", VArr []);
              ("comment", VUndefined); ("private_zone", VBool false)]).

Definition recordOf (zoneId : string) (ttl alias : value) : TerraformResource :=
  createResource "aws" (zoneId +:+ "_www.example.com._A_")
    (zoneId +:+ "_www.example.com._A_") "route53_record"
    (literal [("name", VStr "www.example.com"); ("zone_id", VStr zoneId);
              ("type", VStr "A"); ("set_identifier", VStr "")])
    (literal [("ttl", ttl); ("records", VArr []); ("alias", alias);
              ("health_check_id", VUndefined); ("failover", VUndefined);
              ("geolocation", VUndefined); ("latency_routing_policy", VUndefined);
              ("weighted_routing_policy", VUndefined);
              ("multivalue_answer_routing_policy", VBool false)]).

Definition aliasTarget : value :=
  VObj (literal [("name", VStr "lb.example.net."); ("zone_id", VStr "Z999");
                 ("evaluate_target_health", VBool false)]).

Definition record123 : TerraformResource := recordOf "Z123" (VNum 300) VUndefined.
Definition orphanRecord : TerraformResource := recordOf "Z777" (VNum 300) VUndefined.
Definition aliasRecord : TerraformResource := recordOf "Z123" (VNum 300) aliasTarget.

(** A managed policy and a topic carrying a policy document. *)
Definition sourceIpPolicy : string := "${aws:SourceIp}".

Definition iamPolicy : TerraformResource :=
  createResource "aws" "arn:aws:iam::1:policy/p" "p" "iam_policy"
    (literal [("name", VStr "p"); ("policy", VStr sourceIpPolicy)]) (literal []).

Definition snsTopic : TerraformResource :=
  createResource "aws" "arn:aws:sns:r:1:t" "t" "sns_topic"
    (literal [("name", VStr "t"); ("policy", VStr sourceIpPolicy)]) (literal []).

(** The resource of the field-inclusion scenario. *)
Definition emptyAndFull (allow : list string) : TerraformResource :=
  mkResource "x" "aws_thing" "x" "aws"
    (literal [("a", VStr EmptyString); ("b", VStr "x")]) [] [] allow [].

End Examples.

Import Examples.

(** ** Further functions of the sources *)

Module JsReplace.

(** [s.replace(p, template)] for a string pattern [p]: the first
    occurrence only, the template being read as by [getSubstitution]. *)
Fixpoint replaceFirstFrom (p template before s : string) : string :=
  if String.prefix p s then
    getSubstitution p before (substring (String.length p) s) template
      +:+ substring (String.length p) s
  else match s with
       | EmptyString => EmptyString
       | String c t =>
           String c (replaceFirstFrom p template (before +:+ String c EmptyString) t)
       end.

Definition replaceFirst (p template s : string) : string :=
  replaceFirstFrom p template EmptyString s.

End JsReplace.

Import JsReplace.

(** The helpers of [Route53Service] *)
Module Route53Helpers.

(** [wildcardUnescape]: the pattern is the four characters backslash,
    0, 5, 2. *)
Definition wildcardUnescape (s : string) : string :=
  if includes "\052" s then replaceFirst "\052" "*" s else s.

(** [cleanZoneId] *)
Definition cleanZoneId (id : string) : string :=
  replaceFirst "/hostedzone/" EmptyString id.

End Route53Helpers.

(** The name generators of [EC2Service] *)
Module EC2Names.

(** A tag of the inspection API: both members are optional. *)
Record Tag : Type := mkTag { Key : option string; Value : option string }.

(** [tags?.find(tag => tag.Key === 'Name')?.Value]; an absent [Tags]
    member is an empty list. *)
Definition nameTag (tags : list Tag) : option string :=
  match List.find (fun tag =>
                     match Key tag with
                     | Some k => String.eqb k "Name"
                     | None => false
                     end) tags with
  | Some tag => Value tag
  | None => None
  end.

(** [a || b] on an optional string: an absent and an empty string are
    falsy. *)
Definition orElse (a : option string) (b : string) : string :=
  match a with
  | Some s => if String.eqb s EmptyString then b else s
  | None => b
  end.

Definition generateInstanceName (tags : list Tag) (instanceId : string) : string :=
  orElse (nameTag tags) ("instance-" +:+ instanceId).

Definition generateVpcName (tags : list Tag) (vpcId : string) : string :=
  orElse (nameTag tags) ("vpc-" +:+ vpcId).

Definition generateSubnetName (tags : list Tag) (subnetId : string) : string :=
  orElse (nameTag tags) ("subnet-" +:+ subnetId).

(** [nameTag || sg.GroupName || `sg-${sg.GroupId}`] *)
Definition generateSecurityGroupName (tags : list Tag) (groupName : option string)
    (groupId : string) : string :=
  orElse (nameTag tags) (orElse groupName ("sg-" +:+ groupId)).

End EC2Names.

(** [EC2CompleteService.postConvertHook] *)
Module EC2Complete.

(** [['io1', 'io2', 'gp3'].includes(volumeType)] *)
Definition supportsIops (volumeType : value) : bool :=
  existsb (strictEq volumeType) [VStr "io1"; VStr "io2"; VStr "gp3"].

(** The clean-up of the nested object [root_block_device], which is
    changed in place. *)
Definition cleanRootBlockDevice (fields : obj) : obj :=
  let volumeType := getProp "volume_type" fields in
  let fields1 := if negb (supportsIops volumeType)
                 then deleteProp "iops" fields else fields in
  if negb (strictEq volumeType (VStr "gp3"))
  then deleteProp "throughput" fields1 else fields1.

(** Body of the loop. Reading or deleting a property of a truthy value
    that is no mapping does nothing. *)
Definition ec2CompleteStep (resource : TerraformResource) : TerraformResource :=
  if String.eqb (res_type resource) "aws_instance" then
    let device := getProp "root_block_device" (attributes resource) in
    if truthy device then
      match device with
      | VObj fields =>
          withAttributes resource
            (setProp "root_block_device" (VObj (cleanRootBlockDevice fields))
               (attributes resource))
      | _ => resource
      end
    else resource
  else resource.

Definition EC2Complete_postConvertHook (resources : list TerraformResource)
    : option (list TerraformResource) :=
  Some (map ec2CompleteStep resources).

End EC2Complete.

(** Further members of [Terraformer] and of [BaseProvider] *)
Module Orchestration.

(** [filterServices]; an absent [excludes] is an empty list. *)
Definition filterServices (requestedResources availableServices excludes : list string)
    : list string :=
  let services :=
    if (0 <? length requestedResources)%nat
       && negb (existsb (String.eqb "*") requestedResources)
    then List.filter (fun service => existsb (String.eqb service) requestedResources)
           availableServices
    else availableServices in
  if (0 <? length excludes)%nat
  then List.filter (fun service => negb (existsb (String.eqb service) excludes)) services
  else services.

(** [BaseProvider.initService]: the class registered under the name, or
    an error: "not supported service", or a TypeError ([new] on an
    inherited member, or [setVerbose] on what it builds) when the name
    is that of a member of [Object.prototype]. *)
Definition initService (supportedServices : props ServiceKind) (serviceName : string)
    : option ServiceKind :=
  lookupProp serviceName supportedServices.

(** [Object.keys(supportedServices)] *)
Definition keys {A : Type} (o : props A) : list string := map fst (entries o).

(** [resolvePathPattern] *)
Definition resolvePathPattern (pattern : string) (variables : props string) : string :=
  fold_left (fun resolved kv => replaceFirst ("{" +:+ fst kv +:+ "}") (snd kv) resolved)
    (entries variables) pattern.

(** The directory of a service in [generateOutput] *)
Definition serviceOutputPath (pathPattern output provider service : string) : string :=
  resolvePathPattern pathPattern
    (assignAll [] [("output", output); ("provider", provider); ("service", service)]).

Definition defaultPathPattern : string := "{output}/{provider}/{service}/".

End Orchestration.

(** Words used to state the further properties *)
Module Words.

(** The character class [a-z0-9_-] *)
Definition isLowerNameChar (c : ascii) : bool :=
  isLowerAZ c || isDigit c || Ascii.eqb c "_" || Ascii.eqb c "-".

(** The blocks of a list of resources, one after the other. *)
Definition blocksText (RegExp : string -> option (string -> bool))
    (resources : list TerraformResource) : string :=
  fold_right (fun resource rest => resourceBlock RegExp resource +:+ rest)
    EmptyString resources.

(** The resources of the list filed under a type key, in their order. *)
Definition ofTypeKey (key : string) (resources : list TerraformResource)
    : list TerraformResource :=
  List.filter (fun resource => String.eqb (typeKey resource) key) resources.

(** No type key of the list names a member of [Object.prototype]. *)
Definition groupable (resources : list TerraformResource) : bool :=
  forallb (fun resource => negb (inherited (typeKey resource))) resources.


(** No key is bound twice. *)
Definition uniqueKeys {A : Type} (o : props A) : Prop := NoDup (map fst o).

(** The second resource is the first one but for its [attributes]. *)
Definition sameButAttributes (before after : TerraformResource) : Prop :=
  after = withAttributes before (attributes after).

End Words.

Import Words.

(** What makes [IAMService.postConvertHook] call [replace] on a value
    that is no string. *)
Module HookFailure.

Definition isString (v : value) : bool :=
  match v with VStr _ => true | _ => false end.

Definition isIamPolicyType (type : string) : bool :=
  String.eqb type "aws_iam_policy" || String.eqb type "aws_iam_user_policy"
  || String.eqb type "aws_iam_group_policy" || String.eqb type "aws_iam_role_policy".

(** A truthy policy attribute that is no string, at a place the hook
    wraps. *)
Definition iamOffending (resource : TerraformResource) : bool :=
  if isIamPolicyType (res_type resource) then
    truthy (getProp "policy" (attributes resource))
    && negb (isString (getProp "policy" (attributes resource)))
  else
    String.eqb (res_type resource) "aws_iam_role"
    && truthy (getProp "assume_role_policy" (attributes resource))
    && negb (isString (getProp "assume_role_policy" (attributes resource))).

End HookFailure.

Import Route53Helpers EC2Names EC2Complete Orchestration HookFailure.

(** Inputs of the further properties *)
Module MoreExamples.

Definition taggedWeb : list Tag :=
  [mkTag (Some "Env") (Some "prod"); mkTag (Some "Name") (Some "Web 1")].

Definition awsServices : props ServiceKind :=
  assignAll [] [("ec2", EC2Service); ("iam", IAMService);
                ("route53", Route53Service); ("kinesis", KinesisService);
                ("sns", SNSService)].

Definition gp2Instance : TerraformResource :=
  createResource "aws" "i-9" "disk" "instance"
    (literal [("ami", VStr "ami-1");
              ("root_block_device",
               VObj (literal [("device_name", VStr "/dev/sda1");
                              ("volume_type", VStr "gp2");
                              ("iops", VNum 100); ("throughput", VNum 125)]))])
    (literal []).

End MoreExamples.

Import MoreExamples.

(** * Properties *)

(** ** The definitions on the inputs of the documentation *)

Section Evaluation.

Example parseFilter_identifier_list :
  parseFilter "ec2=i-12345678:i-87654321" =
  Some [mkFilter "ec2" "id" ["i-12345678"; "i-87654321"]].
Proof. reflexivity. Qed.

Example parseFilter_field_form :
  parseFilter "Type=instance;Name=instance_type;Value=t3.micro:t3.small" =
  Some [mkFilter "instance" "instance_type" ["t3.micro"; "t3.small"]].
Proof. reflexivity. Qed.

Example parseFilter_name_only :
  parseFilter "Name=instance_type" = Some [mkFilter EmptyString "Name=instance_type" []].
Proof. reflexivity. Qed.

Example sanitizeName_zone : sanitizeName "Z123_example.com" = "z123_example_com".
Proof. reflexivity. Qed.

Example sanitizeName_leading_digit : sanitizeName "9 Lives" = "_9_lives".
Proof. reflexivity. Qed.

Example getSubstitution_dollar :
  getSubstitution "${" EmptyString EmptyString "$${" = "${".
Proof. reflexivity. Qed.

Example replaceDollarBrace_policy :
  replaceDollarBrace "$${" "ip = ${aws:SourceIp}" = "ip = ${aws:SourceIp}".
Proof. reflexivity. Qed.

Example formatHclValue_nested :
  formatHclValue (VArr [VNum 1; VBool true; VNull; VObj [("k", VStr "v")]]) =
  "[1, true, null, {" +:+ nl +:+ "    k = " +:+ dquote +:+ "v" +:+ dquote
  +:+ nl +:+ "  }]".
Proof. reflexivity. Qed.

Example formatHclValue_escapes :
  formatHclValue (VStr ("a" +:+ dquote +:+ nl +:+ "b")) =
  dquote +:+ "a" +:+ backslash +:+ dquote +:+ backslash +:+ "nb" +:+ dquote.
Proof. reflexivity. Qed.

Example literal_orders_index_keys :
  literal [("b", VNull); ("10", VNull); ("a", VNull); ("2", VNull); ("b", VBool true)] =
  [("2", VNull); ("10", VNull); ("b", VBool true); ("a", VNull)].
Proof. reflexivity. Qed.

Example groupResourcesByType_order :
  option_map (map fst) (groupResourcesByType [record123; zone123; orphanRecord]) =
  Some ["route53_record"; "route53_zone"].
Proof. reflexivity. Qed.

Example groupResourcesByType_constructor :
  groupResourcesByType
    [zone123; createResource "aws" "c-1" "c" "constructor" (literal []) (literal [])] =
  None.
Proof. reflexivity. Qed.

(** The identifier-list scenario of the specification, under the
    evaluation rule: [ec2=i-1:i-2] accepts the instance [i-1], rejects
    the instance [i-3], and lets the resources of other categories pass. *)
Example identifier_list_rule :
  survives "ec2" [mkFilter "ec2" "id" ["i-1"; "i-2"]] instance1 = true /\
  survives "ec2" [mkFilter "ec2" "id" ["i-1"; "i-2"]] instance3 = false /\
  survives "s3" [mkFilter "ec2" "id" ["i-1"; "i-2"]] instance3 = true.
Proof. repeat split; reflexivity. Qed.

End Evaluation.

(** ** Strings *)

Section StringFacts.

Lemma append_assoc (a b c : string) : (a +:+ b) +:+ c = a +:+ (b +:+ c).
Proof. induction a as [|x a IH]; simpl; congruence. Qed.

Lemma append_empty_r (a : string) : a +:+ EmptyString = a.
Proof. induction a as [|x a IH]; simpl; congruence. Qed.

Lemma prefix_missing_char (c : ascii) (p s : string) :
  hasChar c p = true -> hasChar c s = false -> String.prefix p s = false.
Proof.
  revert s; induction p as [|x p IH]; intros s Hp Hs; simpl in *; [discriminate|].
  destruct s as [|y s]; [reflexivity|]. simpl in Hs. simpl.
  apply orb_false_iff in Hs as [Hy Hs].
  destruct (ascii_dec x y) as [->|Hxy]; [|reflexivity].
  rewrite Hy in Hp. simpl in Hp. now apply IH.
Qed.

Lemma includes_unfold (p s : string) :
  includes p s =
  String.prefix p s ||
  match s with EmptyString => false | String _ t => includes p t end.
Proof. destruct s; reflexivity. Qed.

Lemma includes_missing_char (c : ascii) (p s : string) :
  hasChar c p = true -> hasChar c s = false -> includes p s = false.
Proof.
  intros Hp. induction s as [|y s IH]; intros Hs; rewrite includes_unfold;
    rewrite (prefix_missing_char c p _ Hp Hs); [reflexivity|].
  simpl in Hs. apply orb_false_iff in Hs as [_ Hs]. now apply IH.
Qed.

Lemma includes_one_char (c : ascii) (s : string) :
  includes (String c EmptyString) s = hasChar c s.
Proof.
  induction s as [|y s IH]; [reflexivity|].
  rewrite includes_unfold, IH. simpl.
  destruct (ascii_dec c y) as [->|Hcy].
  - rewrite Ascii.eqb_refl. now destruct s.
  - destruct (Ascii.eqb_spec y c) as [->|_]; [contradiction | reflexivity].
Qed.

Lemma split_not_nil (sep : ascii) (s : string) : split sep s <> [].
Proof.
  induction s as [|y s IH]; simpl; [discriminate|].
  destruct (Ascii.eqb y sep); [discriminate|].
  destruct (split sep s); [contradiction | discriminate].
Qed.

Lemma split_two_pieces (sep : ascii) (s : string) :
  hasChar sep s = true -> exists a b r, split sep s = a :: b :: r.
Proof.
  induction s as [|y s IH]; simpl; [discriminate|].
  destruct (Ascii.eqb y sep) eqn:E; simpl; intros H.
  - destruct (split sep s) as [|h r] eqn:Hs; [now apply split_not_nil in Hs|].
    now exists EmptyString, h, r.
  - destruct (IH H) as (a & b & r & ->). now exists (String y a), b, r.
Qed.

Lemma split_pieces_missing_char (c sep : ascii) (s : string) :
  hasChar c s = false -> Forall (fun piece => hasChar c piece = false) (split sep s).
Proof.
  induction s as [|y s IH]; simpl; intros H.
  - repeat constructor.
  - apply orb_false_iff in H as [Hy Hs]. specialize (IH Hs).
    destruct (Ascii.eqb y sep).
    + constructor; [reflexivity | exact IH].
    + destruct (split sep s) as [|h r]; [repeat constructor; simpl; now rewrite Hy|].
      inversion IH; subst. constructor; [simpl; now rewrite Hy | assumption].
Qed.

End StringFacts.

(** ** Filter expressions *)

Section ParseFilter.

(** [parseFilter] never throws. *)
Lemma parseFilter_total (rawFilter : string) :
  exists fs, parseFilter rawFilter = Some fs.
Proof.
  unfold parseFilter.
  destruct (negb (includes "Name=" rawFilter) && includes "=" rawFilter) eqn:E.
  - apply andb_true_iff in E as [_ E]. rewrite includes_one_char in E.
    destruct (split_two_pieces _ _ E) as (a & b & r & ->). eauto.
  - destruct (split ";" rawFilter) as [|p0 rest] eqn:Hs;
      [now apply split_not_nil in Hs|].
    simpl. eauto.
Qed.

End ParseFilter.

Section FilterClaims.

Lemma intersects_nil (values : list string) : intersects values [] = false.
Proof. induction values as [|v values IH]; [reflexivity | exact IH]. Qed.

(** C6. The field-form expression [Type=ec2;Name=instance_type], which
    has no [Value=] clause, parses to exactly one predicate with category
    [ec2], field path [instance_type] and an empty list of acceptable
    values; under the evaluation rule of the filter engine that predicate
    accepts no value at all, so it rejects every resource of category
    [ec2]. *)
Theorem type_name_filter_fails_closed :
  exists f,
    parseFilter "Type=ec2;Name=instance_type" = Some [f] /\
    serviceName f = "ec2" /\
    fieldPath f = "instance_type" /\
    acceptableValues f = [] /\
    isApplicable f "ec2" = true /\
    (forall values, passesWith f "ec2" values = false) /\
    (forall resource, passes "ec2" resource f = false) /\
    (forall resource, survives "ec2" [f] resource = false).
Proof.
  exists (mkFilter "ec2" "instance_type" []).
  assert (H : forall values,
             passesWith (mkFilter "ec2" "instance_type" []) "ec2" values = false).
  { intros values. unfold passesWith. cbn [acceptableValues].
    rewrite intersects_nil. reflexivity. }
  do 5 (split; [reflexivity|]).
  split; [exact H|]. split.
  - intros resource. apply H.
  - intros resource. unfold survives, passes. cbn [forallb]. now rewrite H.
Qed.

(** The expression [instance_type] has no [=], and the parser does not
    return the empty list on it. *)
Lemma parseFilter_without_equals_not_skipped :
  hasChar "=" "instance_type" = false /\
  parseFilter "instance_type" <> Some [].
Proof. split; [reflexivity | discriminate]. Qed.

(** C7, amended. On every expression without any [=] the parser does
    not throw and returns exactly one predicate: its category is the
    wildcard, its field path is the text before the first semicolon and
    its list of acceptable values is empty. The expression is not
    skipped. *)
Theorem parseFilter_without_equals_returns_a_predicate (rawFilter : string) :
  hasChar "=" rawFilter = false ->
  parseFilter rawFilter =
    Some [mkFilter EmptyString (hd EmptyString (split ";" rawFilter)) []]
  /\ parseFilter rawFilter <> Some [].
Proof.
  intros Hno.
  assert (Hp : parseFilter rawFilter =
    Some [mkFilter EmptyString (hd EmptyString (split ";" rawFilter)) []]).
  { unfold parseFilter.
    rewrite includes_one_char, Hno, andb_false_r.
    pose proof (split_pieces_missing_char "=" ";" rawFilter Hno) as Hall.
    destruct (split ";" rawFilter) as [|p0 rest] eqn:Hs;
      [now apply split_not_nil in Hs|].
    inversion Hall as [|? ? H0 Hrest]; subst.
    cbn [length Nat.leb hd]. unfold startsWith.
    rewrite (prefix_missing_char "=" "Type=" p0 eq_refl H0).
    destruct rest as [|p1 rest]; [reflexivity|].
    inversion Hrest as [|? ? H1 Hrest']; subst.
    rewrite (prefix_missing_char "=" "Name=" p1 eq_refl H1).
    destruct rest as [|p2 rest]; [reflexivity|].
    inversion Hrest' as [|? ? H2 _]; subst.
    rewrite (prefix_missing_char "=" "Value=" p2 eq_refl H2).
    reflexivity. }
  split; [exact Hp | rewrite Hp; discriminate].
Qed.

Lemma parseFilter_without_equals_witness :
  hasChar "=" "instance_type" = false /\
  parseFilter "instance_type" = Some [mkFilter EmptyString "instance_type" []].
Proof.
  split; [reflexivity|].
  exact (proj1 (parseFilter_without_equals_returns_a_predicate "instance_type" eq_refl)).
Defined.

End FilterClaims.

(** ** Sanitized names *)

Section Sanitize.

Ltac all_chars c :=
  destruct c as [[] [] [] [] [] [] [] []]; vm_compute; intros; congruence.

Lemma lower_name_char (c : ascii) :
  isNameChar c = true ->
  isIdentStart (toLowerCaseChar c) || isDigit (toLowerCaseChar c)
    || Ascii.eqb (toLowerCaseChar c) "-" = true.
Proof. all_chars c. Qed.

Lemma lower_name_start (c : ascii) :
  isNameChar c = true -> isDigit c = false -> Ascii.eqb c "-" = false ->
  isIdentStart (toLowerCaseChar c) = true.
Proof. all_chars c. Qed.

Lemma lower_not_upper (c : ascii) : isUpper (toLowerCaseChar c) = false.
Proof. all_chars c. Qed.

Lemma lower_hyphen_only (c : ascii) :
  Ascii.eqb c "-" = true -> isIdentStart (toLowerCaseChar c) = false.
Proof. all_chars c. Qed.

Lemma replaceChars_cons (before : string) (c : ascii) (t : string) :
  replaceCharsFrom invalidChar "_" before (String c t) =
  String (if isNameChar c then c else "_"%char)
    (replaceCharsFrom invalidChar "_" (before +:+ String c EmptyString) t).
Proof.
  cbn [replaceCharsFrom]. unfold invalidChar.
  destruct (isNameChar c); reflexivity.
Qed.

Lemma replaceChars_name_chars (before s : string) :
  allChars isNameChar (replaceCharsFrom invalidChar "_" before s) = true.
Proof.
  revert before; induction s as [|c t IH]; intros before; [reflexivity|].
  rewrite replaceChars_cons. cbn [allChars]. rewrite IH, andb_true_r.
  destruct (isNameChar c) eqn:E; [exact E | reflexivity].
Qed.

Lemma toLowerCase_tail (s : string) :
  allChars isNameChar s = true ->
  allChars (fun d => isIdentStart d || isDigit d || Ascii.eqb d "-") (toLowerCase s) = true.
Proof.
  induction s as [|c t IH]; [reflexivity|]. cbn [allChars toLowerCase].
  intros H. apply andb_true_iff in H as [Hc Ht].
  now rewrite (lower_name_char c Hc), IH.
Qed.

(** Every sanitized name is lowercase. *)
Lemma sanitizeName_lowercase (name : string) : isLowercase (sanitizeName name) = true.
Proof.
  unfold sanitizeName, isLowercase.
  generalize (replaceLeadingDigit "_$&" (replaceChars invalidChar "_" name)).
  intros s. induction s as [|c t IH]; [reflexivity|].
  cbn [toLowerCase allChars]. now rewrite lower_not_upper, IH.
Qed.

(** A name that is not empty and does not begin with a hyphen is
    sanitized into an identifier. *)
Lemma sanitizeName_identifier (c : ascii) (t : string) :
  Ascii.eqb c "-" = false ->
  matchesIdentifier (sanitizeName (String c t)) = true.
Proof.
  intros Hc. unfold sanitizeName, replaceChars.
  rewrite replaceChars_cons.
  pose proof (replaceChars_name_chars (EmptyString +:+ String c EmptyString) t) as Ht.
  set (rest := replaceCharsFrom invalidChar "_" _ t) in *.
  set (c' := if isNameChar c then c else "_"%char).
  assert (Hn : isNameChar c' = true).
  { subst c'. destruct (isNameChar c) eqn:E; [exact E | reflexivity]. }
  assert (Hh : Ascii.eqb c' "-" = false).
  { subst c'. destruct (isNameChar c); [exact Hc | reflexivity]. }
  cbn [replaceLeadingDigit]. destruct (isDigit c') eqn:Hd.
  - change (getSubstitution (String c' EmptyString) EmptyString rest "_$&")
      with (String "_" (String c' EmptyString)).
    cbn [String.append toLowerCase matchesIdentifier allChars].
    rewrite (lower_name_char c' Hn), (toLowerCase_tail rest Ht). reflexivity.
  - cbn [toLowerCase matchesIdentifier].
    now rewrite (lower_name_start c' Hn Hd Hh), (toLowerCase_tail rest Ht).
Qed.

(** C9. [sanitizeName] leaves a leading hyphen in place and maps the
    empty name to itself, so the result is not always an identifier
    [^[_a-zA-Z][_a-zA-Z0-9-]*$]: no name that begins with a hyphen is
    sanitized into one, nor is the empty name. *)
Theorem sanitizeName_keeps_leading_hyphen :
  sanitizeName "-prod" = "-prod" /\
  matchesIdentifier (sanitizeName "-prod") = false /\
  matchesIdentifier (sanitizeName EmptyString) = false /\
  (forall t, matchesIdentifier (sanitizeName (String "-" t)) = false).
Proof.
  split; [reflexivity|]. split; [reflexivity|]. split; [reflexivity|].
  intros t. reflexivity.
Qed.

End Sanitize.

(** ** Objects *)

Section Objects.
Context {A : Type}.
Implicit Types (o : props A) (k : string) (v : A).

Lemma hasProp_lookup k o : hasProp k o = false -> lookupProp k o = None.
Proof. unfold hasProp. now destruct (lookupProp k o). Qed.

Lemma lookupProp_updateProp k v o :
  hasProp k o = true -> lookupProp k (updateProp k v o) = Some v.
Proof.
  unfold hasProp. induction o as [|[k' v'] o IH]; simpl; [discriminate|].
  destruct (String.eqb k' k) eqn:E; simpl.
  - now rewrite String.eqb_refl.
  - rewrite E. exact IH.
Qed.

Lemma lookupProp_insertIndexProp n k v o :
  lookupProp k o = None -> lookupProp k (insertIndexProp n k v o) = Some v.
Proof.
  induction o as [|[k' v'] o IH]; simpl.
  - now rewrite String.eqb_refl.
  - destruct (String.eqb k' k) eqn:E; [discriminate|]. intros H.
    destruct (arrayIndex k') as [m|]; [destruct (m <? n)%N|]; simpl;
      rewrite ?String.eqb_refl, ?E; auto.
Qed.

Lemma lookupProp_app_new k v o :
  lookupProp k o = None -> lookupProp k (o ++ [(k, v)]) = Some v.
Proof.
  induction o as [|[k' v'] o IH]; simpl.
  - now rewrite String.eqb_refl.
  - destruct (String.eqb k' k); [discriminate | exact IH].
Qed.

Lemma lookupProp_setProp k v o : lookupProp k (setProp k v o) = Some v.
Proof.
  unfold setProp. destruct (hasProp k o) eqn:E.
  - now apply lookupProp_updateProp.
  - apply hasProp_lookup in E.
    destruct (arrayIndex k); [now apply lookupProp_insertIndexProp|].
    now apply lookupProp_app_new.
Qed.

Lemma lookupProp_deleteProp_other k k' o :
  String.eqb k k' = false -> lookupProp k' (deleteProp k o) = lookupProp k' o.
Proof.
  intros Hne. induction o as [|[k0 v0] o IH]; simpl; [reflexivity|].
  destruct (String.eqb k0 k) eqn:E.
  - apply String.eqb_eq in E as ->. now rewrite Hne.
  - simpl. now rewrite IH.
Qed.

End Objects.

Lemma getProp_setProp (k : string) (v : value) (o : obj) :
  getProp k (setProp k v o) = v.
Proof. unfold getProp. now rewrite lookupProp_setProp. Qed.

Lemma getProp_deleteProp_other (k k' : string) (o : obj) :
  String.eqb k k' = false -> getProp k' (deleteProp k o) = getProp k' o.
Proof. intros H. unfold getProp. now rewrite lookupProp_deleteProp_other. Qed.

(** ** Grouping by type *)

Section Grouping.
Implicit Types (g : props (list TerraformResource)) (r : TerraformResource).

Lemma flat_updateProp k (l : list TerraformResource) r g :
  lookupProp k g = Some l ->
  flat_map snd (updateProp k (l ++ [r]) g) ≡ₚ flat_map snd g ++ [r].
Proof.
  induction g as [|[k' l'] g IH]; simpl; [discriminate|].
  destruct (String.eqb k' k) eqn:E.
  - intros [= ->]. simpl. rewrite <- !app_assoc.
    apply Permutation_app_head, Permutation_app_comm.
  - intros H. simpl. rewrite <- app_assoc. apply Permutation_app_head. now apply IH.
Qed.

Lemma flat_insertIndexProp n k g :
  flat_map snd (insertIndexProp n k [] g) = flat_map snd g.
Proof.
  induction g as [|[k' l'] g IH]; simpl; [reflexivity|].
  destruct (arrayIndex k') as [m|]; [destruct (m <? n)%N|]; simpl;
    rewrite ?IH; reflexivity.
Qed.

Lemma flat_setProp_nil k g :
  hasProp k g = false -> flat_map snd (setProp k [] g) = flat_map snd g.
Proof.
  intros H. unfold setProp. rewrite H.
  destruct (arrayIndex k); [apply flat_insertIndexProp|].
  rewrite flat_map_app. simpl. now rewrite app_nil_r.
Qed.

Lemma groupStep_flat g g' r :
  groupStep g r = Some g' -> flat_map snd g' ≡ₚ flat_map snd g ++ [r].
Proof.
  unfold groupStep. set (k := typeKey r).
  destruct (hasProp k g) eqn:E; cbn [orb].
  - unfold hasProp in E. destruct (lookupProp k g) as [l|] eqn:Hl; [|discriminate].
    intros [= <-]. unfold setProp, hasProp. rewrite Hl. now apply flat_updateProp.
  - destruct (inherited k).
    + apply hasProp_lookup in E. rewrite E. discriminate.
    + rewrite lookupProp_setProp. intros [= <-].
      unfold setProp at 1. unfold hasProp at 1. rewrite lookupProp_setProp.
      rewrite (flat_updateProp k [] r (setProp k [] g) (lookupProp_setProp k [] g)).
      now rewrite flat_setProp_nil.
Qed.

Lemma fold_groupStep_flat (resources : list TerraformResource) g g' :
  foldM groupStep resources g = Some g' ->
  flat_map snd g' ≡ₚ flat_map snd g ++ resources.
Proof.
  revert g; induction resources as [|r resources IH]; intros g; cbn [foldM].
  - intros [= <-]. now rewrite app_nil_r.
  - destruct (groupStep g r) as [g1|] eqn:E; [|discriminate].
    intros H. rewrite (IH _ H), (groupStep_flat _ _ _ E), <- app_assoc. reflexivity.
Qed.

(** The configuration renderer opens one block for each resource of its
    input, no more and no less. *)
Lemma emittedResources_permutation
    (resources emitted : list TerraformResource) :
  emittedResources resources = Some emitted -> emitted ≡ₚ resources.
Proof.
  unfold emittedResources, entries, groupResourcesByType.
  destruct (foldM groupStep resources []) as [g|] eqn:E; [|discriminate].
  intros [= <-]. apply (fold_groupStep_flat _ _ _ E).
Qed.

End Grouping.

(** ** The configuration renderer *)

Section RendererFacts.
Variable RegExp : string -> option (string -> bool).

Lemma foldM_app {A S : Type} (f : S -> A -> option S) (l1 l2 : list A) (s : S) :
  foldM f (l1 ++ l2) s =
  match foldM f l1 s with Some s' => foldM f l2 s' | None => None end.
Proof.
  revert s; induction l1 as [|x l1 IH]; intros s; simpl; [reflexivity|].
  destruct (f s x); [apply IH | reflexivity].
Qed.

Lemma foldM_groups {A K S : Type} (f : S -> A -> option S)
    (groups : list (K * list A)) (s : S) :
  foldM (fun acc group => foldM f (snd group) acc) groups s =
  foldM f (flat_map snd groups) s.
Proof.
  revert s; induction groups as [|[k l] groups IH]; intros s; simpl; [reflexivity|].
  rewrite foldM_app. destruct (foldM f l s); [apply IH | reflexivity].
Qed.

(** The text is the sequence of the blocks of [emittedResources]. *)
Lemma generateHclResources_blockwise (resources : list TerraformResource) :
  generateHclResources RegExp resources =
  let? emitted := emittedResources resources in
  foldM (appendResource RegExp) emitted EmptyString.
Proof.
  unfold generateHclResources, emittedResources.
  destruct (groupResourcesByType resources); [apply foldM_groups | reflexivity].
Qed.

Lemma appendAttributes_extend (resource : TerraformResource)
    (fields : list (string * value)) (hcl out : string) :
  foldM (appendAttribute RegExp resource) fields hcl = Some out ->
  exists body, out = hcl +:+ body.
Proof.
  revert hcl; induction fields as [|kv fields IH]; intros hcl; cbn [foldM].
  - intros [= <-]. exists EmptyString. now rewrite append_empty_r.
  - unfold appendAttribute at 1.
    destruct (shouldIncludeAttribute RegExp (fst kv) (snd kv) resource) as [[]|];
      cbn beta iota; [| |discriminate]; intros H; destruct (IH _ H) as [body ->].
    + exists (attributeLine (fst kv) (snd kv) +:+ body). now rewrite append_assoc.
    + now exists body.
Qed.

(** Each block opens with the header naming its type and its name. *)
Lemma appendResource_header (resource : TerraformResource) (hcl out : string) :
  appendResource RegExp hcl resource = Some out ->
  exists body, out = hcl +:+ resourceHeader resource +:+ body.
Proof.
  unfold appendResource.
  destruct (foldM _ _ _) as [hcl1|] eqn:E; [|discriminate].
  intros [= <-]. destruct (appendAttributes_extend _ _ _ _ E) as [body ->].
  exists (body +:+ "}" +:+ nl +:+ nl). now rewrite !append_assoc.
Qed.

Lemma someTest_matchesAny (patterns : list string) (key : string) :
  (forall pattern, In pattern patterns -> exists test, RegExp pattern = Some test) ->
  someTest RegExp patterns key = Some (matchesAny RegExp patterns key).
Proof.
  induction patterns as [|p patterns IH]; intros H; simpl; [reflexivity|].
  destruct (H p (or_introl eq_refl)) as [test ->].
  destruct (test key); [reflexivity|]. simpl. apply IH.
  intros q Hq. apply H. now right.
Qed.

(** The test [value === null || value === undefined || value === '']
    singles out the empty values of the policy. *)
Lemma isEmptyValue_emptyValue (v : value) : isEmptyValue v = emptyValue v.
Proof. destruct v as [| | | |[|c s]| |]; reflexivity. Qed.

Lemma shouldIncludeAttribute_emitted (resource : TerraformResource)
    (key : string) (v : value) :
  patternsCompile RegExp resource ->
  shouldIncludeAttribute RegExp key v resource = Some (emitted RegExp resource key v).
Proof.
  intros H. unfold shouldIncludeAttribute, emitted.
  rewrite someTest_matchesAny
    by (intros q Hq; apply H, in_or_app; now left).
  destruct (matchesAny RegExp (ignoreKeys resource) key); [reflexivity|].
  rewrite isEmptyValue_emptyValue. destruct (emptyValue v); [|reflexivity].
  rewrite someTest_matchesAny
    by (intros q Hq; apply H, in_or_app; now right).
  now destruct (matchesAny RegExp (allowEmptyValues resource) key).
Qed.

Lemma appendAttributes_emitted (resource : TerraformResource)
    (fields : list (string * value)) (hcl : string) :
  patternsCompile RegExp resource ->
  foldM (appendAttribute RegExp resource) fields hcl =
  Some (hcl +:+ emittedLines RegExp resource fields).
Proof.
  intros H. revert hcl; induction fields as [|kv fields IH]; intros hcl;
    cbn [foldM emittedLines fold_right].
  - now rewrite append_empty_r.
  - unfold appendAttribute at 1. rewrite (shouldIncludeAttribute_emitted _ _ _ H).
    destruct (emitted RegExp resource (fst kv) (snd kv)); rewrite IH;
      now rewrite ?append_assoc.
Qed.

Lemma appendResource_block (resource : TerraformResource) (hcl : string) :
  patternsCompile RegExp resource ->
  appendResource RegExp hcl resource = Some (hcl +:+ resourceBlock RegExp resource).
Proof.
  intros H. unfold appendResource, resourceBlock.
  rewrite (appendAttributes_emitted _ _ _ H). now rewrite !append_assoc.
Qed.



End RendererFacts.

(** ** Parity of configuration and state *)

Section StateParity.

Lemma filter_stateEntries (type name : string) (resources : list TerraformResource) :
  forall privateKeys : nat -> string,
  length (List.filter (sameAddress type name)
            (imap (fun i resource => stateEntry (privateKeys i) resource) resources)) =
  length (List.filter (hasAddress type name) resources).
Proof.
  induction resources as [|r resources IH]; intros privateKeys; [reflexivity|].
  cbn [imap List.filter].
  change (sameAddress type name (stateEntry (privateKeys 0%nat) r))
    with (hasAddress type name r).
  specialize (IH (fun i => privateKeys (S i))).
  destruct (hasAddress type name r); cbn [length]; [f_equal|]; exact IH.
Qed.

Lemma hasAddress_spec (resource r : TerraformResource) :
  hasAddress (res_type resource) (res_name resource) r = true <->
  address r = address resource.
Proof.
  unfold hasAddress, address. rewrite andb_true_iff, !String.eqb_eq.
  split; [intros [-> ->]; reflexivity | intros [= -> ->]; now split].
Qed.

Lemma no_entry_without_address (resource : TerraformResource)
    (resources : list TerraformResource) :
  ~ In (address resource) (map address resources) ->
  List.filter (hasAddress (res_type resource) (res_name resource)) resources = [].
Proof.
  induction resources as [|r resources IH]; intros H; [reflexivity|].
  cbn [List.filter map] in *.
  destruct (hasAddress _ _ r) eqn:E.
  - apply hasAddress_spec in E. exfalso. apply H. now left.
  - apply IH. intros Hin. apply H. now right.
Qed.

Lemma one_resource_per_address (resource : TerraformResource)
    (resources : list TerraformResource) :
  NoDup (map address resources) -> In resource resources ->
  length (List.filter (hasAddress (res_type resource) (res_name resource)) resources) = 1%nat.
Proof.
  induction resources as [|r resources IH]; intros Hnd Hin; [contradiction|].
  cbn [map] in Hnd. apply NoDup_cons in Hnd as [Hfresh Hnd].
  rewrite list_elem_of_In in Hfresh.
  cbn [List.filter]. destruct (hasAddress _ _ r) eqn:E.
  - apply hasAddress_spec in E. rewrite E in Hfresh.
    now rewrite (no_entry_without_address _ _ Hfresh).
  - destruct Hin as [->|Hin]; [|now apply IH].
    assert (hasAddress (res_type resource) (res_name resource) resource = true)
      by now apply hasAddress_spec.
    congruence.
Qed.

(** C2. When the pairs [(type, name)] of a resource list are pairwise
    different, the text of the configuration renderer is the sequence of
    the blocks of [emittedResources], each opened by the line
    [resource "<type>" "<name>" {] naming its type and name (there is no
    block when the grouping throws), and for every resource that gets a
    block, in the single file of the compact layout or in the file of its
    type, the state document rendered from the same list holds exactly
    one entry with that type and that name; so it does for every resource
    of the list. *)
Theorem state_entry_for_every_block
    (RegExp : string -> option (string -> bool))
    (lineageId : string) (privateKeys : nat -> string)
    (resources : list TerraformResource) :
  NoDup (map address resources) ->
  generateHclResources RegExp resources =
    (let? emitted := emittedResources resources in
     foldM (appendResource RegExp) emitted EmptyString) /\
  (forall resource hcl out,
     appendResource RegExp hcl resource = Some out ->
     exists body,
       out = hcl
             +:+ ("resource " +:+ dquote +:+ res_type resource +:+ dquote +:+ " "
                  +:+ dquote +:+ res_name resource +:+ dquote +:+ " {" +:+ nl)
             +:+ body) /\
  (forall emitted resource,
     emittedResources resources = Some emitted ->
     In resource emitted ->
     countEntries (res_type resource) (res_name resource)
       (generateTerraformState lineageId privateKeys resources) = 1%nat) /\
  (forall grouped group emitted resource,
     groupResourcesByType resources = Some grouped ->
     In group (entries grouped) ->
     emittedResources (snd group) = Some emitted ->
     In resource emitted ->
     countEntries (res_type resource) (res_name resource)
       (generateTerraformState lineageId privateKeys resources) = 1%nat) /\
  (forall resource,
     In resource resources ->
     countEntries (res_type resource) (res_name resource)
       (generateTerraformState lineageId privateKeys resources) = 1%nat).
Proof.
  intros Hnd. split; [apply generateHclResources_blockwise|].
  split; [intros resource hcl out; apply appendResource_header|].
  assert (Hone : forall resource,
             In resource resources ->
             countEntries (res_type resource) (res_name resource)
               (generateTerraformState lineageId privateKeys resources) = 1%nat).
  { intros resource Hin. unfold countEntries, generateTerraformState.
    cbn [state_resources]. rewrite filter_stateEntries.
    now apply one_resource_per_address. }
  split; [|split; [|exact Hone]].
  - intros emitted resource He Hin. apply Hone.
    apply (Permutation_in _ (emittedResources_permutation _ _ He) Hin).
  - intros grouped group emitted resource Hg Hgroup He Hin. apply Hone.
    assert (Hall : emittedResources resources = Some (flat_map snd (entries grouped)))
      by (unfold emittedResources; now rewrite Hg).
    apply (Permutation_in _ (emittedResources_permutation _ _ Hall)).
    apply in_flat_map. exists group. split; [exact Hgroup|].
    apply (Permutation_in _ (emittedResources_permutation _ _ He) Hin).
Qed.

Lemma state_entry_for_every_block_witness :
  NoDup (map address [zone123; record123]) /\
  countEntries (res_type record123) (res_name record123)
    (generateTerraformState "lineage" (fun _ => "private") [zone123; record123]) = 1%nat.
Proof.
  assert (H : NoDup (map address [zone123; record123])).
  { apply (bool_decide_unpack _). vm_compute. reflexivity. }
  split; [exact H|].
  apply (proj1 (proj2 (proj2 (state_entry_for_every_block literalRegExp "lineage"
                                (fun _ => "private") [zone123; record123] H)))
           [zone123; record123]).
  - vm_compute. reflexivity.
  - right. left. reflexivity.
Defined.

End StateParity.

(** ** Field inclusion *)

Section FieldInclusion.



End FieldInclusion.

(** ** The Route53 hook *)

Section Route53.
Implicit Types (r zone record : TerraformResource) (st : list TerraformResource).

Lemma strictEq_string (v : value) (z : string) :
  strictEq v (VStr z) = true <-> v = VStr z.
Proof.
  destruct v; simpl; split; try discriminate.
  - intros H. apply String.eqb_eq in H. now subst.
  - intros [= ->]. apply String.eqb_refl.
Qed.

Lemma isZoneFor_string zone (z : string) :
  isZoneFor (VStr z) zone = true <->
  res_type zone = "aws_route53_zone" /\
  getProp "zone_id" (additionalFields zone) = VStr z.
Proof.
  unfold isZoneFor. now rewrite andb_true_iff, String.eqb_eq, strictEq_string.
Qed.

Lemma zoneView_inv r r' :
  zoneView r = zoneView r' ->
  res_type r = res_type r' /\ res_name r = res_name r' /\
  additionalFields r = additionalFields r'.
Proof. unfold zoneView. intros H. inversion H. auto. Qed.

(** The step changes [attributes] only. *)
Lemma route53Step_view st r : zoneView (route53Step st r) = zoneView r.
Proof.
  unfold route53Step, route53Record, route53HealthCheck.
  repeat match goal with |- context [if ?b then _ else _] => destruct b end;
    reflexivity.
Qed.

Lemma route53Step_additionalFields st r :
  additionalFields (route53Step st r) = additionalFields r.
Proof. now destruct (zoneView_inv _ _ (route53Step_view st r)) as (_ & _ & H). Qed.

(** The inner loop sees the resources through [zoneView]. *)
Lemma find_zone_name (zoneId : value) st st' :
  map zoneView st = map zoneView st' ->
  option_map res_name (List.find (isZoneFor zoneId) st) =
  option_map res_name (List.find (isZoneFor zoneId) st').
Proof.
  revert st'; induction st as [|a st IH]; intros [|b st'] H; try discriminate;
    [reflexivity|].
  cbn [map] in H. unfold zoneView at 1 2 in H.
  injection H as Ht Hn Ha Hrest. cbn [List.find].
  assert (Hz : isZoneFor zoneId a = isZoneFor zoneId b).
  { unfold isZoneFor. now rewrite Ht, Ha. }
  rewrite Hz. destruct (isZoneFor zoneId b); [|now apply IH].
  simpl. now rewrite Hn.
Qed.

Lemma route53Record_view st st' r :
  map zoneView st = map zoneView st' -> route53Record st r = route53Record st' r.
Proof.
  intros H. unfold route53Record.
  pose proof (find_zone_name (getProp "zone_id" (attributes r)) st st' H) as Hf.
  destruct (List.find _ st) as [z|], (List.find _ st') as [z'|];
    try discriminate; [|reflexivity].
  injection Hf as Hn. unfold zoneReference. now rewrite Hn.
Qed.

Lemma route53Step_state st st' r :
  map zoneView st = map zoneView st' -> route53Step st r = route53Step st' r.
Proof. intros H. unfold route53Step. now rewrite (route53Record_view st st' r H). Qed.

(** Walking the array in place amounts to mapping the step, taken on
    the array as it was, over the array. *)
Lemma route53Loop_map (resources todo done : list TerraformResource) :
  map zoneView (done ++ todo) = map zoneView resources ->
  route53Loop (length todo) (length done) (done ++ todo) =
  done ++ map (route53Step resources) todo.
Proof.
  revert done; induction todo as [|r todo IH]; intros done Hview; [reflexivity|].
  cbn [length route53Loop map].
  rewrite (list_lookup_middle done todo r (length done) eq_refl).
  rewrite (insert_app_r_alt done (r :: todo) (length done)) by lia.
  rewrite Nat.sub_diag. cbn [insert list_insert].
  rewrite (route53Step_state _ resources r Hview).
  replace (S (length done)) with (length (done ++ [route53Step resources r]))
    by (rewrite length_app; simpl; lia).
  rewrite (cons_middle (route53Step resources r) done todo).
  rewrite (app_assoc done [route53Step resources r] todo).
  rewrite IH; [now rewrite <- app_assoc|].
  rewrite <- Hview, <- !app_assoc, !map_app. cbn [app map].
  now rewrite route53Step_view.
Qed.

Lemma Route53_postConvertHook_map (resources : list TerraformResource) :
  Route53_postConvertHook resources = Some (map (route53Step resources) resources).
Proof.
  unfold Route53_postConvertHook. f_equal.
  exact (route53Loop_map resources resources [] eq_refl).
Qed.

(** The hook leaves [additionalFields] of every resource as it was. *)
Lemma Route53_postConvertHook_additionalFields
    (resources out : list TerraformResource) (i : nat) r :
  Route53_postConvertHook resources = Some out -> resources !! i = Some r ->
  exists r', out !! i = Some r' /\ additionalFields r' = additionalFields r.
Proof.
  rewrite Route53_postConvertHook_map. intros [= <-] Hi.
  exists (route53Step resources r). split; [|apply route53Step_additionalFields].
  change (map (route53Step resources) resources)
    with (route53Step resources <$> resources).
  now rewrite list_lookup_fmap, Hi.
Qed.

Lemma route53Step_record_zone_id st record :
  res_type record = "aws_route53_record" ->
  getProp "zone_id" (attributes (route53Step st record)) =
  match List.find (isZoneFor (getProp "zone_id" (attributes record))) st with
  | Some zone => VStr (zoneReference zone)
  | None => getProp "zone_id" (attributes record)
  end.
Proof.
  intros Ht. unfold route53Step. rewrite Ht. cbn [String.eqb Ascii.eqb Bool.eqb].
  unfold route53Record at 1. cbn [res_type withAttributes]. rewrite Ht.
  cbn [String.eqb Ascii.eqb Bool.eqb]. unfold route53Record.
  cbn [attributes withAttributes].
  set (attrs1 := match List.find _ st with Some _ => _ | None => _ end).
  assert (H1 : getProp "zone_id" attrs1 =
               match List.find (isZoneFor (getProp "zone_id" (attributes record))) st with
               | Some zone => VStr (zoneReference zone)
               | None => getProp "zone_id" (attributes record)
               end).
  { subst attrs1. destruct (List.find _ st); [apply getProp_setProp | reflexivity]. }
  destruct (truthy _); [|exact H1].
  now rewrite getProp_deleteProp_other.
Qed.

Lemma Route53_postConvertHook_record
    (resources : list TerraformResource) (i : nat) record :
  resources !! i = Some record ->
  res_type record = "aws_route53_record" ->
  exists out record',
    Route53_postConvertHook resources = Some out /\
    out !! i = Some record' /\
    getProp "zone_id" (attributes record') =
    match List.find (isZoneFor (getProp "zone_id" (attributes record))) resources with
    | Some zone => VStr (zoneReference zone)
    | None => getProp "zone_id" (attributes record)
    end.
Proof.
  intros Hi Ht.
  exists (map (route53Step resources) resources), (route53Step resources record).
  split; [apply Route53_postConvertHook_map|]. split.
  - change (map (route53Step resources) resources)
      with (route53Step resources <$> resources).
    now rewrite list_lookup_fmap, Hi.
  - now apply route53Step_record_zone_id.
Qed.

(** C3. After the Route53 hook, a record whose [zone_id] attribute is
    the string [Z] reads [${aws_route53_zone.<name>.zone_id}], where
    [<name>] is the name of a zone resource of the set whose native zone
    id is [Z] (the first one in the list), as soon as the set holds such a
    zone; a record whose [zone_id] matches no zone of the set keeps its
    value; and the hook does not throw. *)
Theorem route53_zone_reference
    (resources : list TerraformResource) (i : nat) record :
  resources !! i = Some record ->
  res_type record = "aws_route53_record" ->
  exists out record',
    Route53_postConvertHook resources = Some out /\
    out !! i = Some record' /\
    (forall zone Z,
       In zone resources ->
       res_type zone = "aws_route53_zone" ->
       getProp "zone_id" (additionalFields zone) = VStr Z ->
       getProp "zone_id" (attributes record) = VStr Z ->
       exists zone',
         List.find (isZoneFor (VStr Z)) resources = Some zone' /\
         In zone' resources /\
         res_type zone' = "aws_route53_zone" /\
         getProp "zone_id" (additionalFields zone') = VStr Z /\
         getProp "zone_id" (attributes record') =
           VStr ("${aws_route53_zone." +:+ res_name zone' +:+ ".zone_id}")) /\
    ((forall zone,
        In zone resources ->
        isZoneFor (getProp "zone_id" (attributes record)) zone = false) ->
     getProp "zone_id" (attributes record') =
     getProp "zone_id" (attributes record)).
Proof.
  intros Hi Ht.
  destruct (Route53_postConvertHook_record resources i record Hi Ht)
    as (out & record' & Hout & Hi' & Hv).
  exists out, record'. split; [exact Hout|]. split; [exact Hi'|].
  rewrite Hv. split.
  - intros zone Z Hin Hzt Hzid Hrec. rewrite Hrec.
    destruct (List.find (isZoneFor (VStr Z)) resources) as [zone'|] eqn:Hf.
    + destruct (find_some _ _ Hf) as [Hin' Hz']. apply isZoneFor_string in Hz' as [? ?].
      exists zone'. repeat split; assumption || reflexivity.
    + pose proof (find_none _ _ Hf zone Hin) as Hn.
      assert (isZoneFor (VStr Z) zone = true) by now apply isZoneFor_string.
      congruence.
  - intros Hmiss.
    destruct (List.find _ resources) as [zone'|] eqn:Hf; [|reflexivity].
    destruct (find_some _ _ Hf) as [Hin' Hz']. rewrite (Hmiss zone' Hin') in Hz'.
    discriminate.
Qed.

Lemma route53_zone_reference_witness :
  exists out record',
    Route53_postConvertHook [record123; zone123; orphanRecord] = Some out /\
    out !! 0%nat = Some record' /\
    getProp "zone_id" (attributes record') =
      VStr "${aws_route53_zone.z123_example_com.zone_id}".
Proof.
  destruct (route53_zone_reference [record123; zone123; orphanRecord] 0 record123
              eq_refl eq_refl) as (out & record' & Hout & Hi & Hhit & _).
  exists out, record'. split; [exact Hout|]. split; [exact Hi|].
  destruct (Hhit zone123 "Z123" (or_intror (or_introl eq_refl)) eq_refl eq_refl eq_refl)
    as (zone' & Hf & _ & _ & _ & Hv).
  vm_compute in Hf. injection Hf as <-. exact Hv.
Defined.

(** When the zone is the only one of the set with its native id, the
    reference names that very zone. *)
Lemma route53_zone_reference_unique
    (resources : list TerraformResource) (i : nat) record zone (Z : string) :
  resources !! i = Some record ->
  res_type record = "aws_route53_record" ->
  getProp "zone_id" (attributes record) = VStr Z ->
  In zone resources ->
  isZoneFor (VStr Z) zone = true ->
  (forall zone', In zone' resources -> isZoneFor (VStr Z) zone' = true ->
                 res_name zone' = res_name zone) ->
  exists out record',
    Route53_postConvertHook resources = Some out /\
    out !! i = Some record' /\
    getProp "zone_id" (attributes record') = VStr (zoneReference zone).
Proof.
  intros Hi Ht Hrec Hin Hz Huniq.
  destruct (Route53_postConvertHook_record resources i record Hi Ht)
    as (out & record' & Hout & Hi' & Hv).
  exists out, record'. repeat split; try assumption.
  rewrite Hv, Hrec.
  destruct (List.find (isZoneFor (VStr Z)) resources) as [zone'|] eqn:Hf.
  - destruct (find_some _ _ Hf) as [Hin' Hz'].
    unfold zoneReference. now rewrite (Huniq zone' Hin' Hz').
  - pose proof (find_none _ _ Hf zone Hin). congruence.
Qed.

End Route53.

Section MergedFields.
Context {A : Type}.
Implicit Types (o : props A) (k : string) (v : A).

Lemma lookupProp_updateProp_other k k' v o :
  String.eqb k k' = false -> lookupProp k' (updateProp k v o) = lookupProp k' o.
Proof.
  intros Hne. induction o as [|[k0 v0] o IH]; simpl; [reflexivity|].
  destruct (String.eqb k0 k) eqn:E; simpl.
  - apply String.eqb_eq in E as ->. now rewrite Hne.
  - now rewrite IH.
Qed.

Lemma lookupProp_insertIndexProp_other n k k' v o :
  String.eqb k k' = false ->
  lookupProp k' (insertIndexProp n k v o) = lookupProp k' o.
Proof.
  intros Hne. induction o as [|[k0 v0] o IH]; simpl; [now rewrite Hne|].
  destruct (arrayIndex k0) as [m|]; [destruct (m <? n)%N|]; simpl;
    rewrite ?Hne, ?IH; reflexivity.
Qed.

Lemma lookupProp_app k (o1 o2 : props A) :
  lookupProp k (o1 ++ o2) =
  match lookupProp k o1 with Some v => Some v | None => lookupProp k o2 end.
Proof.
  induction o1 as [|[k0 v0] o1 IH]; simpl; [reflexivity|].
  now destruct (String.eqb k0 k).
Qed.

Lemma lookupProp_setProp_other k k' v o :
  String.eqb k k' = false -> lookupProp k' (setProp k v o) = lookupProp k' o.
Proof.
  intros Hne. unfold setProp. destruct (hasProp k o).
  - now apply lookupProp_updateProp_other.
  - destruct (arrayIndex k); [now apply lookupProp_insertIndexProp_other|].
    rewrite lookupProp_app. simpl. rewrite Hne. now destruct (lookupProp k' o).
Qed.

(** In [{ ...target, ...source }] the last binding of a key in [source]
    wins, and the keys [source] does not bind keep their value. *)
Lemma lookupProp_assignAll k (target source : props A) :
  lookupProp k (assignAll target source) =
  match lookupProp k (rev source) with
  | Some v => Some v
  | None => lookupProp k target
  end.
Proof.
  unfold assignAll. revert target.
  induction source as [|[k0 v0] source IH]; intros target; [reflexivity|].
  cbn [fold_left rev fst snd]. rewrite IH, lookupProp_app.
  destruct (lookupProp k (rev source)); [reflexivity|]. simpl.
  destruct (String.eqb k0 k) eqn:E.
  - apply String.eqb_eq in E as ->. apply lookupProp_setProp.
  - now apply lookupProp_setProp_other.
Qed.

Lemma lookupProp_In k v o : lookupProp k o = Some v -> In (k, v) o.
Proof.
  induction o as [|[k0 v0] o IH]; simpl; [discriminate|].
  destruct (String.eqb k0 k) eqn:E.
  - apply String.eqb_eq in E as ->. intros [= ->]. now left.
  - intros H. right. now apply IH.
Qed.

Lemma In_lookupProp k v o : In (k, v) o -> exists v', lookupProp k o = Some v'.
Proof.
  induction o as [|[k0 v0] o IH]; simpl; [contradiction|].
  intros [[= -> ->]|H].
  - rewrite String.eqb_refl. eauto.
  - destruct (String.eqb k0 k); eauto.
Qed.

(** A key of [additionalFields] is a key of the merged mapping, with a
    value [additionalFields] gives it. *)
Lemma spread_keeps_second k (a b : props A) :
  hasProp k b = true ->
  exists v, In (k, v) b /\ lookupProp k (spread a b) = Some v.
Proof.
  unfold hasProp. destruct (lookupProp k b) as [v0|] eqn:Hb; [|discriminate].
  intros _. apply lookupProp_In in Hb. apply in_rev in Hb.
  destruct (In_lookupProp _ _ _ Hb) as [v Hv].
  exists v. split.
  - apply in_rev. now apply lookupProp_In.
  - unfold spread. now rewrite lookupProp_assignAll, Hv.
Qed.

End MergedFields.

Section AliasRecords.

(** Whatever the hook deletes from [attributes], a TTL filed under
    [additionalFields] is still a field of the merged mapping the
    renderer walks. *)
Lemma Route53_postConvertHook_keeps_ttl
    (resources out : list TerraformResource) (i : nat) (record : TerraformResource) :
  Route53_postConvertHook resources = Some out ->
  resources !! i = Some record ->
  hasProp "ttl" (additionalFields record) = true ->
  exists record' v,
    out !! i = Some record' /\
    In ("ttl", v) (additionalFields record) /\
    getProp "ttl" (allAttributes record') = v.
Proof.
  intros Hout Hi Httl.
  destruct (Route53_postConvertHook_additionalFields _ _ _ _ Hout Hi)
    as (record' & Hi' & Hadd).
  destruct (spread_keeps_second "ttl" (attributes record') _ Httl) as (v & Hin & Hv).
  exists record', v. split; [exact Hi'|]. split; [exact Hin|].
  unfold getProp, allAttributes. now rewrite Hadd, Hv.
Qed.

(** C10. The Route53 hook deletes [ttl] from [attributes], while
    [loadResourceRecordSets] files the TTL under [additionalFields],
    which the hook leaves alone and the renderer merges into the block:
    the block of an alias record with a TTL of 300 still holds the line
    [ttl = 300]. *)
Theorem alias_record_keeps_ttl (RegExp : string -> option (string -> bool)) :
  truthy (getProp "alias" (additionalFields aliasRecord)) = true /\
  exists out hcl,
    Route53_postConvertHook [zone123; aliasRecord] = Some out /\
    generateHclResources RegExp out = Some hcl /\
    includes ("  ttl = 300" +:+ nl) hcl = true /\
    (exists record',
       out !! 1%nat = Some record' /\
       getProp "ttl" (allAttributes record') = VNum 300).
Proof.
  split; [reflexivity|].
  eexists _, _. split; [reflexivity|]. split; [vm_compute; reflexivity|].
  split; [vm_compute; reflexivity|].
  eexists. split; reflexivity.
Qed.

End AliasRecords.

(** ** Policy documents *)

Section Policies.

Lemma replaceDollarBraceFrom_unfold (template before : string) (c d : ascii) (t : string) :
  replaceDollarBraceFrom template before (String c (String d t)) =
  if Ascii.eqb c "$" && Ascii.eqb d "{" then
    getSubstitution "${" before t template
      +:+ replaceDollarBraceFrom template (before +:+ "${") t
  else
    String c (replaceDollarBraceFrom template (before +:+ String c EmptyString)
                (String d t)).
Proof. reflexivity. Qed.

Lemma replaceDollarBrace_unchanged (s : string) :
  (forall before, replaceDollarBraceFrom "$${" before s = s) /\
  (forall c before, replaceDollarBraceFrom "$${" before (String c s) = String c s).
Proof.
  induction s as [|d t [IH1 IH2]].
  - split; reflexivity.
  - split; [exact (IH2 d)|]. intros c before.
    rewrite replaceDollarBraceFrom_unfold.
    destruct (Ascii.eqb c "$" && Ascii.eqb d "{") eqn:E.
    + apply andb_true_iff in E as [Hc Hd].
      apply Ascii.eqb_eq in Hc as ->. apply Ascii.eqb_eq in Hd as ->.
      rewrite IH1. reflexivity.
    + now rewrite IH2.
Qed.

(** The template ['$${'] stands for the two characters it replaces:
    [escapeAwsInterpolation] returns its argument. *)
Lemma escapeAwsInterpolation_unchanged (s : string) :
  escapeAwsInterpolation (VStr s) = Some s.
Proof.
  unfold escapeAwsInterpolation, replaceDollarBrace.
  now rewrite (proj1 (replaceDollarBrace_unchanged s)).
Qed.

Lemma hasChar_append (c : ascii) (a b : string) :
  hasChar c (a +:+ b) = hasChar c a || hasChar c b.
Proof.
  induction a as [|x a IH]; simpl; [reflexivity|]. now rewrite IH, orb_assoc.
Qed.

Lemma escaped_newlines (before s : string) :
  hasChar (ascii_of_nat 10)
    (replaceCharsFrom (fun c => Ascii.eqb c (ascii_of_nat 10)) (backslash +:+ "n") before s)
  = false.
Proof.
  revert before; induction s as [|c t IH]; intros before; [reflexivity|].
  cbn [replaceCharsFrom]. rewrite hasChar_append, IH, orb_false_r.
  destruct (Ascii.eqb c (ascii_of_nat 10)) eqn:E; [reflexivity|].
  simpl. now rewrite E.
Qed.

(** A string is always rendered between quotes, on one line. *)
Lemma formatHclValue_string_one_line (s : string) :
  exists body,
    formatHclValue (VStr s) = dquote +:+ body +:+ dquote /\
    hasChar (ascii_of_nat 10) body = false.
Proof.
  exists (escapeString s). split; [reflexivity|]. apply escaped_newlines.
Qed.

(** C4. The policy [${aws:SourceIp}] of an IAM policy resource goes
    through the hook and the text renderer as follows: the hook leaves the
    interpolation marker as it is (no [$${] appears) and wraps the policy
    between the heredoc sentinels; the renderer then emits the wrapped
    text as a quoted string on one line, its newlines written as a
    backslash and the letter n. *)
Theorem policy_heredoc_is_quoted_and_unescaped
    (RegExp : string -> option (string -> bool)) :
  exists out hcl,
    IAM_postConvertHook [iamPolicy] = Some out /\
    generateHclResources RegExp out = Some hcl /\
    hcl = resourceHeader iamPolicy
          +:+ attributeLine "name" (VStr "p")
          +:+ ("  policy = " +:+ dquote +:+ "<<POLICY" +:+ backslash
               +:+ "n${aws:SourceIp}" +:+ backslash +:+ "nPOLICY" +:+ dquote +:+ nl)
          +:+ "}" +:+ nl +:+ nl /\
    includes "$${" hcl = false /\
    includes ("<<POLICY" +:+ nl) hcl = false.
Proof.
  eexists _, _. split; [reflexivity|]. split; [vm_compute; reflexivity|].
  split; [vm_compute; reflexivity|]. split; vm_compute; reflexivity.
Qed.

Lemma length_append (a b : string) :
  String.length (a +:+ b) = (String.length a + String.length b)%nat.
Proof. induction a as [|x a IH]; simpl; [reflexivity | now rewrite IH]. Qed.

Lemma heredoc_longer (p : string) : heredoc p <> p.
Proof.
  intros H. apply (f_equal String.length) in H.
  unfold heredoc in H. rewrite !length_append in H. simpl in H. lia.
Qed.

Lemma heredoc_truthy (p : string) : truthy (VStr (heredoc p)) = true.
Proof. reflexivity. Qed.

Lemma wrapPolicy_string (key p : string) (resource : TerraformResource) :
  getProp key (attributes resource) = VStr p ->
  exists r1,
    wrapPolicy key resource = Some r1 /\
    res_type r1 = res_type resource /\
    getProp key (attributes r1) = VStr (heredoc p).
Proof.
  intros Hp. unfold wrapPolicy. rewrite Hp, escapeAwsInterpolation_unchanged.
  eexists. split; [reflexivity|]. split; [reflexivity|].
  cbn [attributes withAttributes]. apply getProp_setProp.
Qed.

Lemma iamStep_policy (p : string) (resource : TerraformResource) :
  res_type resource = "aws_iam_policy" ->
  getProp "policy" (attributes resource) = VStr p ->
  truthy (VStr p) = true ->
  exists r1,
    iamStep resource = Some r1 /\
    res_type r1 = "aws_iam_policy" /\
    getProp "policy" (attributes r1) = VStr (heredoc p).
Proof.
  intros Ht Hp Htruthy. unfold iamStep. rewrite Ht, Hp, Htruthy.
  cbn [String.eqb Ascii.eqb Bool.eqb orb].
  destruct (wrapPolicy_string "policy" p resource Hp) as (r1 & -> & Ht1 & Hp1).
  exists r1. now rewrite Ht1, Ht.
Qed.

Lemma snsStep_policy (p : string) (resource : TerraformResource) :
  res_type resource = "aws_sns_topic" ->
  getProp "policy" (attributes resource) = VStr p ->
  truthy (VStr p) = true ->
  exists r1,
    snsStep resource = Some r1 /\
    res_type r1 = "aws_sns_topic" /\
    getProp "policy" (attributes r1) = VStr (heredoc p).
Proof.
  intros Ht Hp Htruthy. unfold snsStep. rewrite Ht, Hp, Htruthy.
  cbn [String.eqb Ascii.eqb Bool.eqb andb].
  destruct (wrapPolicy_string "policy" p resource Hp) as (r1 & -> & Ht1 & Hp1).
  exists r1. now rewrite Ht1, Ht.
Qed.

(** C8. The policy hooks are not idempotent: on a resource that carries
    a policy document, the IAM hook and the SNS hook each wrap the policy
    between the heredoc sentinels, and a second run wraps the wrapped text
    once more, so that two runs do not leave the resources as one run
    does. *)
Theorem policy_hooks_wrap_again (resource : TerraformResource) (p : string) :
  p <> EmptyString ->
  getProp "policy" (attributes resource) = VStr p ->
  (res_type resource = "aws_iam_policy" ->
   exists r1 r2,
     IAM_postConvertHook [resource] = Some [r1] /\
     IAM_postConvertHook [r1] = Some [r2] /\
     getProp "policy" (attributes r1) = VStr (heredoc p) /\
     getProp "policy" (attributes r2) = VStr (heredoc (heredoc p)) /\
     r2 <> r1) /\
  (res_type resource = "aws_sns_topic" ->
   exists r1 r2,
     SNS_postConvertHook [resource] = Some [r1] /\
     SNS_postConvertHook [r1] = Some [r2] /\
     getProp "policy" (attributes r1) = VStr (heredoc p) /\
     getProp "policy" (attributes r2) = VStr (heredoc (heredoc p)) /\
     r2 <> r1).
Proof.
  intros Hne Hp.
  assert (Htruthy : truthy (VStr p) = true).
  { simpl. destruct (String.eqb_spec p EmptyString); [contradiction | reflexivity]. }
  split; intros Ht.
  - destruct (iamStep_policy p resource Ht Hp Htruthy) as (r1 & H1 & Ht1 & Hp1).
    destruct (iamStep_policy (heredoc p) r1 Ht1 Hp1 (heredoc_truthy p))
      as (r2 & H2 & Ht2 & Hp2).
    exists r1, r2. unfold IAM_postConvertHook. cbn. rewrite H1, H2. cbn.
    repeat split; try assumption.
    intros ->. rewrite Hp1 in Hp2. injection Hp2 as Hp2. symmetry in Hp2.
    now apply heredoc_longer in Hp2.
  - destruct (snsStep_policy p resource Ht Hp Htruthy) as (r1 & H1 & Ht1 & Hp1).
    destruct (snsStep_policy (heredoc p) r1 Ht1 Hp1 (heredoc_truthy p))
      as (r2 & H2 & Ht2 & Hp2).
    exists r1, r2. unfold SNS_postConvertHook. cbn. rewrite H1, H2. cbn.
    repeat split; try assumption.
    intros ->. rewrite Hp1 in Hp2. injection Hp2 as Hp2. symmetry in Hp2.
    now apply heredoc_longer in Hp2.
Qed.

Lemma policy_hooks_wrap_again_witness :
  (exists r1 r2,
     IAM_postConvertHook [iamPolicy] = Some [r1] /\
     IAM_postConvertHook [r1] = Some [r2] /\
     getProp "policy" (attributes r1) = VStr (heredoc sourceIpPolicy) /\
     getProp "policy" (attributes r2) = VStr (heredoc (heredoc sourceIpPolicy)) /\
     r2 <> r1) /\
  (exists r1 r2,
     SNS_postConvertHook [snsTopic] = Some [r1] /\
     SNS_postConvertHook [r1] = Some [r2] /\
     getProp "policy" (attributes r1) = VStr (heredoc sourceIpPolicy) /\
     getProp "policy" (attributes r2) = VStr (heredoc (heredoc sourceIpPolicy)) /\
     r2 <> r1).
Proof.
  assert (Hne : sourceIpPolicy <> EmptyString) by (vm_compute; discriminate).
  split.
  - exact (proj1 (policy_hooks_wrap_again iamPolicy sourceIpPolicy Hne eq_refl) eq_refl).
  - exact (proj2 (policy_hooks_wrap_again snsTopic sourceIpPolicy Hne eq_refl) eq_refl).
Defined.

End Policies.

(** ** Filters in the orchestrator *)

Section Filtering.

Lemma parse_every_filter (k : ServiceKind) (rawFilters : list string) :
  exists parsed, mapM (serviceParseFilter k) rawFilters = Some parsed.
Proof.
  induction rawFilters as [|raw rawFilters [parsed IH]]; [now exists []|].
  assert (exists fs, serviceParseFilter k raw = Some fs) as [fs Hfs].
  { destruct k; cbn [serviceParseFilter]; try apply parseFilter_total.
    now exists []. }
  exists (fs :: parsed). cbn. rewrite Hfs. cbn. now rewrite IH.
Qed.

(** [applyFilters] returns the resources it was given. *)
Lemma applyFilters_unchanged (k : ServiceKind)
    (resources : list TerraformResource) (rawFilters : list string) :
  applyFilters k resources rawFilters = Some resources.
Proof.
  unfold applyFilters. now destruct (parse_every_filter k rawFilters) as [parsed ->].
Qed.

(** The resources of a service reach the hook whatever the filters. *)
Lemma importService_ignores_filters (options : ImportOptions) (k : ServiceKind)
    (discovered : list TerraformResource) :
  importService options k discovered = postConvertHook k discovered.
Proof.
  unfold importService.
  destruct (0 <? length (filters options))%nat; [|reflexivity].
  now rewrite applyFilters_unchanged.
Qed.

(** C1. The orchestrator parses the filter expressions and drops the
    predicates: with the expression [ec2=i-1], the instance [i-3] belongs
    to the category of the predicate and its identifier is not among the
    acceptable values, so the evaluation rule rejects it; the run still
    renders its block and files its state entry. *)
Theorem filters_are_parsed_and_dropped
    (RegExp : string -> option (string -> bool))
    (lineageOf : string -> string) (privateKeyOf : string -> nat -> string) :
  (forall k resources rawFilters,
     applyFilters k resources rawFilters = Some resources) /\
  exists f,
    parseFilter "ec2=i-1" = Some [f] /\
    isApplicable f "ec2" = true /\
    intersects (fieldValues instance3 (fieldPath f)) (acceptableValues f) = false /\
    survives "ec2" [f] instance1 = true /\
    survives "ec2" [f] instance3 = false /\
    importServices onlyInstance1 [(EC2Service, [instance1; instance3])] [] =
      Some [instance1; instance3] /\
    exists outputs out file,
      import RegExp lineageOf privateKeyOf onlyInstance1
        [(EC2Service, [instance1; instance3])] = Some outputs /\
      In out outputs /\
      In file (out_files out) /\
      includes (resourceHeader instance3) (snd file) = true /\
      countEntries (res_type instance3) (res_name instance3) (out_state out) = 1%nat.
Proof.
  split; [apply applyFilters_unchanged|].
  exists (mkFilter "ec2" "id" ["i-1"]).
  do 6 (split; [vm_compute; reflexivity|]).
  eexists _, _, _. split; [vm_compute; reflexivity|].
  split; [left; reflexivity|]. split; [left; reflexivity|].
  split; vm_compute; reflexivity.
Qed.

End Filtering.

(** * Further properties of the sources *)

(** ** Filter expressions, continued *)

Section SplitJoin.

Lemma split_without_separator (c : ascii) (a : string) :
  hasChar c a = false -> split c a = [a].
Proof.
  induction a as [|x a IH]; simpl; [reflexivity|]. intros H.
  apply orb_false_iff in H as [Hx Ha]. rewrite Hx, (IH Ha). reflexivity.
Qed.

Lemma split_at_separator (c : ascii) (a b : string) :
  hasChar c a = false -> split c (a +:+ String c b) = a :: split c b.
Proof.
  induction a as [|x a IH]; simpl; intros H.
  - now rewrite Ascii.eqb_refl.
  - apply orb_false_iff in H as [Hx Ha]. rewrite Hx, (IH Ha). reflexivity.
Qed.

Lemma join_cons (sep x y : string) (l : list string) :
  join sep (x :: y :: l) = x +:+ sep +:+ join sep (y :: l).
Proof. reflexivity. Qed.

Lemma split_join (c : ascii) (l : list string) :
  l <> [] ->
  Forall (fun piece => hasChar c piece = false) l ->
  split c (join (String c EmptyString) l) = l.
Proof.
  induction l as [|x l IH]; intros Hne Hall; [contradiction|].
  inversion Hall as [|? ? Hx Hl]; subst.
  destruct l as [|y l]; [now apply split_without_separator|].
  rewrite join_cons. cbn [String.append].
  rewrite (split_at_separator c x _ Hx), IH; [reflexivity | discriminate | exact Hl].
Qed.

Lemma hasChar_join (d : ascii) (sep : string) (l : list string) :
  hasChar d sep = false ->
  Forall (fun piece => hasChar d piece = false) l ->
  hasChar d (join sep l) = false.
Proof.
  intros Hsep. induction l as [|x l IH]; intros Hall; [reflexivity|].
  inversion Hall as [|? ? Hx Hl]; subst.
  destruct l as [|y l]; [exact Hx|].
  rewrite join_cons, !hasChar_append, Hx, Hsep, (IH Hl). reflexivity.
Qed.

Lemma prefix_append (p s : string) : String.prefix p (p +:+ s) = true.
Proof.
  induction p as [|x p IH]; simpl; [now destruct s|].
  destruct (ascii_dec x x); [exact IH | contradiction].
Qed.

Lemma includes_append (p a b : string) : includes p (a +:+ p +:+ b) = true.
Proof.
  induction a as [|x a IH]; rewrite includes_unfold.
  - cbn [String.append]. now rewrite prefix_append.
  - cbn [String.append]. rewrite IH. apply orb_true_r.
Qed.

End SplitJoin.

Section ParseFilterMore.

(** X1. Whatever the expression, [parseFilter] does not throw and
    returns exactly one predicate: no expression is skipped and none
    yields several predicates. *)
Theorem parseFilter_one_predicate (rawFilter : string) :
  exists f, parseFilter rawFilter = Some [f].
Proof.
  unfold parseFilter.
  destruct (negb (includes "Name=" rawFilter) && includes "=" rawFilter) eqn:E.
  - apply andb_true_iff in E as [_ E]. rewrite includes_one_char in E.
    destruct (split_two_pieces _ _ E) as (a & b & r & ->). eauto.
  - destruct (split ";" rawFilter) as [|p0 rest] eqn:Hs;
      [now apply split_not_nil in Hs|].
    cbn [length Nat.leb]. eauto.
Qed.

(** X2. The identifier-list form is read back exactly: for a category
    and a non-empty list of identifiers free of [=] and [:], the
    expression [<category>=<id1>:<id2>:...], when it does not contain
    [Name=], parses to the predicate on the field [id] with that
    category and exactly those identifiers, in order. *)
Theorem parseFilter_reads_identifier_list (category : string) (ids : list string) :
  hasChar "=" category = false ->
  ids <> [] ->
  Forall (fun i => hasChar "=" i = false) ids ->
  Forall (fun i => hasChar ":" i = false) ids ->
  includes "Name=" (category +:+ "=" +:+ join ":" ids) = false ->
  parseFilter (category +:+ "=" +:+ join ":" ids) =
  Some [mkFilter category "id" ids].
Proof.
  intros Hcat Hne Heq Hcolon Hname. unfold parseFilter.
  rewrite Hname, includes_one_char, hasChar_append. cbn [negb andb].
  replace (hasChar "=" category || hasChar "=" ("=" +:+ join ":" ids)) with true
    by (rewrite Hcat; reflexivity).
  change ("=" +:+ join ":" ids) with (String "=" (join ":" ids)).
  rewrite (split_at_separator "=" category _ Hcat).
  rewrite (split_without_separator "=" (join ":" ids))
    by (apply hasChar_join; [reflexivity | exact Heq]).
  now rewrite (split_join ":" ids Hne Hcolon).
Qed.

Lemma parseFilter_reads_identifier_list_witness :
  parseFilter "ec2=i-12345678:i-87654321" =
  Some [mkFilter "ec2" "id" ["i-12345678"; "i-87654321"]].
Proof.
  apply (parseFilter_reads_identifier_list "ec2" ["i-12345678"; "i-87654321"]).
  - reflexivity.
  - discriminate.
  - repeat constructor.
  - repeat constructor.
  - reflexivity.
Defined.

(** X3. The field form is read back exactly: for a category, a field
    path and a non-empty list of values, none of which holds a semicolon
    and the values holding no colon either, the expression
    [Type=<category>;Name=<path>;Value=<v1>:<v2>:...] parses to the
    predicate with that category, that path and exactly those values. *)
Theorem parseFilter_reads_field_form (category path : string) (values : list string) :
  hasChar ";" category = false ->
  hasChar ";" path = false ->
  values <> [] ->
  Forall (fun v => hasChar ";" v = false) values ->
  Forall (fun v => hasChar ":" v = false) values ->
  parseFilter ("Type=" +:+ category +:+ ";Name=" +:+ path
               +:+ ";Value=" +:+ join ":" values) =
  Some [mkFilter category path values].
Proof.
  intros Hcat Hpath Hne Hsemi Hcolon. unfold parseFilter.
  assert (Hinc : includes "Name="
                   ("Type=" +:+ category +:+ ";Name=" +:+ path
                    +:+ ";Value=" +:+ join ":" values) = true).
  { change (";Name=" +:+ path +:+ ";Value=" +:+ join ":" values)
      with (";" +:+ "Name=" +:+ path +:+ ";Value=" +:+ join ":" values).
    rewrite <- !append_assoc. rewrite !append_assoc.
    rewrite <- (append_assoc "Type=" category), <- (append_assoc _ ";").
    apply includes_append. }
  rewrite Hinc. cbn [negb andb].
  assert (Hsplit : split ";"
                     ("Type=" +:+ category +:+ ";Name=" +:+ path
                      +:+ ";Value=" +:+ join ":" values) =
                   ["Type=" +:+ category; "Name=" +:+ path;
                    "Value=" +:+ join ":" values]).
  { rewrite <- (append_assoc "Type=" category).
    change (";Name=" +:+ path +:+ ";Value=" +:+ join ":" values)
      with (String ";" ("Name=" +:+ path +:+ ";Value=" +:+ join ":" values)).
    rewrite (split_at_separator ";" ("Type=" +:+ category))
      by (rewrite hasChar_append, Hcat; reflexivity).
    rewrite <- (append_assoc "Name=" path).
    change (";Value=" +:+ join ":" values)
      with (String ";" ("Value=" +:+ join ":" values)).
    rewrite (split_at_separator ";" ("Name=" +:+ path))
      by (rewrite hasChar_append, Hpath; reflexivity).
    rewrite (split_without_separator ";" ("Value=" +:+ join ":" values));
      [reflexivity|].
    rewrite hasChar_append. cbn [hasChar Ascii.eqb Bool.eqb orb].
    apply hasChar_join; [reflexivity | exact Hsemi]. }
  rewrite Hsplit. cbn [length Nat.leb]. unfold startsWith.
  rewrite !prefix_append.
  change (substring 5 ("Type=" +:+ category)) with category.
  change (substring 5 ("Name=" +:+ path)) with path.
  change (substring 6 ("Value=" +:+ join ":" values)) with (join ":" values).
  now rewrite (split_join ":" values Hne Hcolon).
Qed.

Lemma parseFilter_reads_field_form_witness :
  parseFilter "Type=instance;Name=instance_type;Value=t3.micro:t3.small" =
  Some [mkFilter "instance" "instance_type" ["t3.micro"; "t3.small"]].
Proof.
  apply (parseFilter_reads_field_form "instance" "instance_type" ["t3.micro"; "t3.small"]).
  - reflexivity.
  - reflexivity.
  - discriminate.
  - repeat constructor.
  - repeat constructor.
Defined.

End ParseFilterMore.

(** ** Sanitized names, continued *)

Section SanitizeMore.

Ltac every_char c :=
  destruct c as [[] [] [] [] [] [] [] []]; vm_compute; intros; congruence.

Lemma lower_of_name_char (c : ascii) :
  isNameChar c = true -> isLowerNameChar (toLowerCaseChar c) = true.
Proof. every_char c. Qed.

Lemma lower_name_is_name (c : ascii) :
  isLowerNameChar c = true -> isNameChar c = true.
Proof. every_char c. Qed.

Lemma lower_name_fixed (c : ascii) :
  isLowerNameChar c = true -> toLowerCaseChar c = c.
Proof. every_char c. Qed.

Lemma lower_keeps_non_digit (c : ascii) :
  isDigit c = false -> isDigit (toLowerCaseChar c) = false.
Proof. every_char c. Qed.

Lemma replaceLeadingDigit_name_chars (s : string) :
  allChars isNameChar s = true ->
  allChars isNameChar (replaceLeadingDigit "_$&" s) = true.
Proof.
  destruct s as [|c t]; [reflexivity|]. cbn [replaceLeadingDigit].
  destruct (isDigit c); [|trivial].
  change (getSubstitution (String c EmptyString) EmptyString t "_$&")
    with (String "_" (String c EmptyString)).
  trivial.
Qed.

Lemma toLowerCase_lower_name (s : string) :
  allChars isNameChar s = true ->
  allChars isLowerNameChar (toLowerCase s) = true.
Proof.
  induction s as [|c t IH]; [reflexivity|]. cbn [allChars toLowerCase].
  intros H. apply andb_true_iff in H as [Hc Ht].
  now rewrite (lower_of_name_char c Hc), IH.
Qed.

(** X4. Every character of a sanitized name is a lowercase letter, a
    digit, an underscore or a hyphen, whatever the input. *)
Theorem sanitizeName_charset (name : string) :
  allChars isLowerNameChar (sanitizeName name) = true.
Proof.
  unfold sanitizeName. apply toLowerCase_lower_name, replaceLeadingDigit_name_chars.
  apply replaceChars_name_chars.
Qed.

Lemma replaceChars_fixed (before s : string) :
  allChars isNameChar s = true -> replaceCharsFrom invalidChar "_" before s = s.
Proof.
  revert before; induction s as [|c t IH]; intros before; [reflexivity|].
  cbn [allChars]. intros H. apply andb_true_iff in H as [Hc Ht].
  rewrite replaceChars_cons, Hc, (IH _ Ht). reflexivity.
Qed.

Lemma toLowerCase_fixed (s : string) :
  allChars isLowerNameChar s = true -> toLowerCase s = s.
Proof.
  induction s as [|c t IH]; [reflexivity|]. cbn [allChars toLowerCase].
  intros H. apply andb_true_iff in H as [Hc Ht].
  now rewrite (lower_name_fixed c Hc), IH.
Qed.

Lemma allChars_weaken (p q : ascii -> bool) (s : string) :
  (forall c, p c = true -> q c = true) ->
  allChars p s = true -> allChars q s = true.
Proof.
  intros Hpq. induction s as [|c t IH]; [reflexivity|]. cbn [allChars].
  intros H. apply andb_true_iff in H as [Hc Ht]. now rewrite (Hpq c Hc), IH.
Qed.

Lemma sanitizeName_no_leading_digit (name : string) :
  replaceLeadingDigit "_$&" (sanitizeName name) = sanitizeName name.
Proof.
  unfold sanitizeName.
  destruct (replaceChars invalidChar "_" name) as [|c t]; [reflexivity|].
  cbn [replaceLeadingDigit]. destruct (isDigit c) eqn:Hd.
  - change (getSubstitution (String c EmptyString) EmptyString t "_$&")
      with (String "_" (String c EmptyString)).
    reflexivity.
  - cbn [toLowerCase replaceLeadingDigit].
    now rewrite (lower_keeps_non_digit c Hd).
Qed.

(** X5. Sanitizing is idempotent: a sanitized name is left as it is by
    a second pass. *)
Theorem sanitizeName_idempotent (name : string) :
  sanitizeName (sanitizeName name) = sanitizeName name.
Proof.
  assert (Hcs : allChars isLowerNameChar (sanitizeName name) = true).
  { unfold sanitizeName.
    apply toLowerCase_lower_name, replaceLeadingDigit_name_chars.
    apply replaceChars_name_chars. }
  unfold sanitizeName at 1. unfold replaceChars.
  rewrite replaceChars_fixed
    by (apply (allChars_weaken isLowerNameChar); [apply lower_name_is_name | exact Hcs]).
  rewrite sanitizeName_no_leading_digit. now apply toLowerCase_fixed.
Qed.

(** X6. A sanitized name is an identifier
    [^[_a-zA-Z][_a-zA-Z0-9-]*$] exactly when the name given is not empty
    and does not begin with a hyphen. *)
Theorem sanitizeName_identifier_iff (name : string) :
  matchesIdentifier (sanitizeName name) =
  match name with
  | EmptyString => false
  | String c _ => negb (Ascii.eqb c "-")
  end.
Proof.
  destruct name as [|c t]; [reflexivity|].
  destruct (Ascii.eqb c "-") eqn:E.
  - apply Ascii.eqb_eq in E as ->. reflexivity.
  - now apply sanitizeName_identifier.
Qed.

Lemma orElse_cases (a : option string) (b : string) :
  orElse a b = b \/
  exists c t, a = Some (String c t) /\ orElse a b = String c t.
Proof.
  destruct a as [[|c t]|]; simpl; eauto.
Qed.

Lemma named_resource_identifier (a : option string) (c : ascii) (t : string) :
  Ascii.eqb c "-" = false ->
  (forall s, a = Some s -> startsWith "-" s = false) ->
  matchesIdentifier (sanitizeName (orElse a (String c t))) = true.
Proof.
  intros Hc Ha. destruct (orElse_cases a (String c t)) as [->|(d & u & -> & ->)].
  - now apply sanitizeName_identifier.
  - apply sanitizeName_identifier. specialize (Ha _ eq_refl).
    unfold startsWith in Ha. cbn [String.prefix] in Ha.
    destruct (ascii_dec "-" d) as [<-|Hne].
    + now destruct u.
    + destruct (Ascii.eqb_spec d "-"); [congruence | reflexivity].
Qed.

(** X7. The names of the EC2 resources are identifiers unless a tag or
    a group name chosen for them begins with a hyphen: when the [Name]
    tag, if any, does not begin with a hyphen, the sanitized names of an
    instance, a VPC and a subnet are identifiers whatever their ids, and
    so is the name of a security group whose [GroupName], if any, does
    not begin with a hyphen either. An empty tag or an empty id never
    gives an empty name. *)
Theorem ec2_names_are_identifiers (tags : list Tag) (groupName : option string)
    (id : string) :
  (forall s, nameTag tags = Some s -> startsWith "-" s = false) ->
  (forall s, groupName = Some s -> startsWith "-" s = false) ->
  matchesIdentifier (sanitizeName (generateInstanceName tags id)) = true /\
  matchesIdentifier (sanitizeName (generateVpcName tags id)) = true /\
  matchesIdentifier (sanitizeName (generateSubnetName tags id)) = true /\
  matchesIdentifier (sanitizeName (generateSecurityGroupName tags groupName id)) = true.
Proof.
  intros Htag Hgroup.
  split; [now apply named_resource_identifier|].
  split; [now apply named_resource_identifier|].
  split; [now apply named_resource_identifier|].
  unfold generateSecurityGroupName.
  destruct (orElse_cases groupName ("sg-" +:+ id)) as [->|(d & u & Hg & ->)].
  - now apply named_resource_identifier.
  - apply named_resource_identifier; [|exact Htag].
    specialize (Hgroup _ Hg). unfold startsWith in Hgroup.
    cbn [String.prefix] in Hgroup.
    destruct (ascii_dec "-" d) as [<-|Hne].
    + now destruct u.
    + destruct (Ascii.eqb_spec d "-"); [congruence | reflexivity].
Qed.

Lemma ec2_names_are_identifiers_witness :
  sanitizeName (generateInstanceName taggedWeb "i-1") = "web_1" /\
  matchesIdentifier (sanitizeName (generateInstanceName taggedWeb "i-1")) = true /\
  matchesIdentifier (sanitizeName (generateSecurityGroupName [] None "sg-1")) = true.
Proof.
  split; [reflexivity|].
  assert (H1 : forall s, nameTag taggedWeb = Some s -> startsWith "-" s = false)
    by (intros s [= <-]; reflexivity).
  assert (H2 : forall s, nameTag [] = Some s -> startsWith "-" s = false)
    by (intros s; discriminate).
  assert (H3 : forall s, @None string = Some s -> startsWith "-" s = false)
    by (intros s; discriminate).
  split.
  - exact (proj1 (ec2_names_are_identifiers taggedWeb None "i-1" H1 H3)).
  - exact (proj2 (proj2 (proj2 (ec2_names_are_identifiers [] None "sg-1" H2 H3)))).
Defined.

End SanitizeMore.

(** ** Grouping and files *)

Section GroupingMore.
Implicit Types (g : props (list TerraformResource)) (r : TerraformResource).

Lemma removeFirst_unfold (p s : string) :
  removeFirst p s =
  if String.prefix p s then substring (String.length p) s
  else match s with
       | EmptyString => EmptyString
       | String c t => String c (removeFirst p t)
       end.
Proof. destruct s; reflexivity. Qed.

Lemma substring_append (a b : string) : substring (String.length a) (a +:+ b) = b.
Proof. induction a as [|x a IH]; [now destruct b | exact IH]. Qed.

(** X8. [createResource] and [typeKey] undo each other: a resource
    made by [createResource] from a type [t] is filed, by
    [groupResourcesByType] and [groupResourcesByService], under [t]
    itself, whatever the provider name. *)
Theorem typeKey_createResource (providerName id name type : string)
    (attrs additional : obj) :
  typeKey (createResource providerName id name type attrs additional) = type.
Proof.
  unfold typeKey, createResource. cbn [res_provider res_type].
  rewrite <- (append_assoc providerName "_" type).
  rewrite removeFirst_unfold, prefix_append. apply substring_append.
Qed.

Lemma groupStep_lookup (k : string) g g' r :
  groupStep g r = Some g' ->
  lookupProp k g' =
  if String.eqb (typeKey r) k
  then Some (default [] (lookupProp k g) ++ [r])
  else lookupProp k g.
Proof.
  unfold groupStep. set (t := typeKey r).
  destruct (hasProp t g) eqn:E; cbn [orb].
  - unfold hasProp in E. destruct (lookupProp t g) as [l|] eqn:Hl; [|discriminate].
    intros [= <-]. destruct (String.eqb t k) eqn:Etk.
    + apply String.eqb_eq in Etk as <-. now rewrite lookupProp_setProp, Hl.
    + now apply lookupProp_setProp_other.
  - apply hasProp_lookup in E. destruct (inherited t).
    + rewrite E. discriminate.
    + rewrite lookupProp_setProp. intros [= <-].
      destruct (String.eqb t k) eqn:Etk.
      * apply String.eqb_eq in Etk as <-. now rewrite lookupProp_setProp, E.
      * now rewrite !lookupProp_setProp_other.
Qed.

Lemma fold_groupStep_lookup (k : string) (resources : list TerraformResource) g g' :
  foldM groupStep resources g = Some g' ->
  lookupProp k g' =
  match ofTypeKey k resources with
  | [] => lookupProp k g
  | l => Some (default [] (lookupProp k g) ++ l)
  end.
Proof.
  revert g; induction resources as [|r resources IH]; intros g; cbn [foldM].
  - now intros [= <-].
  - destruct (groupStep g r) as [g1|] eqn:E; [|discriminate]. intros H.
    rewrite (IH _ H), (groupStep_lookup k _ _ _ E).
    unfold ofTypeKey. cbn [List.filter]. fold (ofTypeKey k resources).
    destruct (String.eqb (typeKey r) k); [|reflexivity].
    destruct (ofTypeKey k resources) as [|r' l]; [reflexivity|].
    cbn. now rewrite <- app_assoc.
Qed.

(** The step throws exactly on a key that names a member of
    [Object.prototype] and has no group yet. *)
Lemma groupStep_None g r :
  groupStep g r = None <->
  hasProp (typeKey r) g = false /\ inherited (typeKey r) = true.
Proof.
  unfold groupStep. set (t := typeKey r).
  destruct (hasProp t g) eqn:E; cbn [orb].
  - unfold hasProp in E. destruct (lookupProp t g); [|discriminate].
    split; [discriminate | intros [? _]; discriminate].
  - destruct (inherited t).
    + rewrite (hasProp_lookup _ _ E). now split.
    + rewrite lookupProp_setProp. split; [discriminate | intros [_ ?]; discriminate].
Qed.

Lemma groupStep_type_key g g' r :
  (forall k, hasProp k g = true -> inherited k = false) ->
  groupStep g r = Some g' -> inherited (typeKey r) = false.
Proof.
  intros Hg Hs. destruct (inherited (typeKey r)) eqn:Hi; [|reflexivity].
  destruct (hasProp (typeKey r) g) eqn:Hh.
  - rewrite <- Hi. now apply Hg.
  - assert (Hn : groupStep g r = None) by now apply groupStep_None.
    congruence.
Qed.

Lemma groupStep_own_keys g g' r :
  (forall k, hasProp k g = true -> inherited k = false) ->
  groupStep g r = Some g' ->
  forall k, hasProp k g' = true -> inherited k = false.
Proof.
  intros Hg Hs k Hk. unfold hasProp in Hk.
  rewrite (groupStep_lookup k _ _ _ Hs) in Hk.
  destruct (String.eqb (typeKey r) k) eqn:Ek.
  - apply String.eqb_eq in Ek as <-. exact (groupStep_type_key _ _ _ Hg Hs).
  - now apply Hg.
Qed.

Lemma fold_groupStep_None (resources : list TerraformResource) g :
  (forall k, hasProp k g = true -> inherited k = false) ->
  foldM groupStep resources g = None <-> groupable resources = false.
Proof.
  unfold groupable.
  revert g; induction resources as [|r resources IH]; intros g Hg;
    cbn [foldM forallb].
  - split; discriminate.
  - destruct (groupStep g r) as [g1|] eqn:E.
    + rewrite (groupStep_type_key _ _ _ Hg E). cbn [negb andb].
      apply IH. exact (groupStep_own_keys _ _ _ Hg E).
    + apply groupStep_None in E as [_ Hi]. rewrite Hi. now split.
Qed.

(** The grouping throws exactly when a type key of the list names a
    member of [Object.prototype]. *)
Lemma groupResourcesByType_None (resources : list TerraformResource) :
  groupResourcesByType resources = None <-> groupable resources = false.
Proof. apply fold_groupStep_None. intros k Hk. discriminate. Qed.

(** X9. The grouping throws exactly when a type key of the list names a
    member of [Object.prototype]; when it returns, the group of a type
    key holds exactly the resources of the list with that key, in the
    order of the list, and a key no resource has is not a key of the
    grouping. *)
Theorem groupResourcesByType_lookup (resources : list TerraformResource) :
  (groupResourcesByType resources = None <-> groupable resources = false) /\
  forall grouped,
    groupResourcesByType resources = Some grouped ->
    forall key,
      lookupProp key grouped =
      match ofTypeKey key resources with
      | [] => None
      | l => Some l
      end.
Proof.
  split; [apply groupResourcesByType_None|].
  intros grouped H key. unfold groupResourcesByType in H.
  rewrite (fold_groupStep_lookup key _ _ _ H).
  now destruct (ofTypeKey key resources).
Qed.

Lemma lookup_None_fresh {A : Type} (k : string) (o : props A) :
  lookupProp k o = None -> ~ In k (map fst o).
Proof.
  induction o as [|[k0 v0] o IH]; simpl; [tauto|].
  destruct (String.eqb_spec k0 k); [discriminate|]. intros H [?|Hin]; [congruence|].
  now apply IH.
Qed.

Lemma updateProp_keys {A : Type} (k : string) (v : A) (o : props A) :
  map fst (updateProp k v o) = map fst o.
Proof.
  induction o as [|[k0 v0] o IH]; simpl; [reflexivity|].
  destruct (String.eqb_spec k0 k); simpl; congruence.
Qed.

Lemma insertIndexProp_keys {A : Type} (n : N) (k : string) (v : A) (o : props A) :
  map fst (insertIndexProp n k v o) ≡ₚ k :: map fst o.
Proof.
  induction o as [|[k0 v0] o IH]; simpl; [reflexivity|].
  destruct (arrayIndex k0) as [m|]; [destruct (m <? n)%N|]; simpl; try reflexivity.
  rewrite IH. apply perm_swap.
Qed.

Lemma setProp_uniqueKeys {A : Type} (k : string) (v : A) (o : props A) :
  uniqueKeys o -> uniqueKeys (setProp k v o).
Proof.
  unfold uniqueKeys, setProp. intros Hnd. destruct (hasProp k o) eqn:E.
  - now rewrite updateProp_keys.
  - apply hasProp_lookup, lookup_None_fresh in E.
    rewrite <- list_elem_of_In in E.
    destruct (arrayIndex k).
    + rewrite insertIndexProp_keys. now apply NoDup_cons.
    + rewrite map_app. cbn [map fst]. apply NoDup_app. split; [exact Hnd|].
      split; [|apply NoDup_singleton].
      intros x Hx Hk. apply list_elem_of_singleton in Hk as ->. contradiction.
Qed.

Lemma groupResourcesByType_uniqueKeys
    (resources : list TerraformResource) (grouped : props (list TerraformResource)) :
  groupResourcesByType resources = Some grouped -> uniqueKeys grouped.
Proof.
  unfold groupResourcesByType.
  assert (H : forall g, uniqueKeys g ->
                foldM groupStep resources g = Some grouped -> uniqueKeys grouped).
  { induction resources as [|r resources IH]; intros g Hg; cbn [foldM];
      [now intros [= <-]|].
    destruct (groupStep g r) as [g1|] eqn:E; [|discriminate]. apply IH.
    unfold groupStep in E. cbv zeta in E.
    set (g0 := if hasProp (typeKey r) g || inherited (typeKey r)
               then g else setProp (typeKey r) [] g) in E.
    assert (Hg0 : uniqueKeys g0).
    { subst g0. destruct (hasProp (typeKey r) g || inherited (typeKey r));
        [exact Hg | now apply setProp_uniqueKeys]. }
    destruct (lookupProp (typeKey r) g0); [|discriminate].
    injection E as <-. now apply setProp_uniqueKeys. }
  apply H. constructor.
Qed.

Lemma append_cancel_r (a b s : string) : a +:+ s = b +:+ s -> a = b.
Proof.
  intros H.
  assert (Hlen : String.length a = String.length b).
  { apply (f_equal String.length) in H. rewrite !length_append in H. lia. }
  revert b H Hlen; induction a as [|x a IH]; intros [|y b] H Hlen;
    try discriminate; [reflexivity|].
  cbn [String.append] in H. injection H as -> H. f_equal. apply IH; [exact H|].
  simpl in Hlen. lia.
Qed.

(** X10. In the layout with one file per type, the files written for a
    resource list are named [<type key>.tf] after the keys of the
    grouping, one file per key, and no two of them have the same name. *)
Theorem separate_files_have_distinct_names
    (RegExp : string -> option (string -> bool))
    (resources : list TerraformResource) (files : list (string * string)) :
  generateSeparateResourceFiles RegExp resources = Some files ->
  exists grouped,
    groupResourcesByType resources = Some grouped /\
    map fst files = map (fun key => key +:+ ".tf") (keys grouped) /\
    NoDup (map fst files).
Proof.
  unfold generateSeparateResourceFiles, keys, entries.
  destruct (groupResourcesByType resources) as [grouped|] eqn:Hg; [|discriminate].
  intros H. exists grouped. split; [reflexivity|].
  assert (Hnames : map fst files =
                   map (fun key => key +:+ ".tf") (map fst grouped)).
  { clear Hg. apply mapM_Some_1 in H.
    induction H as [|[k l] [n c] groups fs Hx _ IH]; [reflexivity|].
    cbn [map fst]. rewrite IH. f_equal. cbn [fst snd] in Hx.
    destruct (generateHclResources RegExp l); [|discriminate]. now injection Hx. }
  split; [exact Hnames|]. rewrite Hnames.
  assert (Hinj : Inj (=) (=) (fun key => key +:+ ".tf"))
    by (intros a b; apply append_cancel_r).
  apply (NoDup_fmap_2 (fun key => key +:+ ".tf")).
  exact (groupResourcesByType_uniqueKeys _ _ Hg).
Qed.

Lemma separate_files_have_distinct_names_witness :
  exists files,
    generateSeparateResourceFiles literalRegExp [record123; zone123; orphanRecord]
      = Some files /\
    map fst files = ["route53_record.tf"; "route53_zone.tf"] /\
    NoDup (map fst files).
Proof.
  destruct (generateSeparateResourceFiles literalRegExp
              [record123; zone123; orphanRecord]) as [files|] eqn:H.
  - exists files. split; [reflexivity|].
    destruct (separate_files_have_distinct_names literalRegExp _ _ H)
      as (grouped & Hg & Hn & Hd).
    split; [|exact Hd]. rewrite Hn.
    vm_compute in Hg. injection Hg as <-. vm_compute. reflexivity.
  - vm_compute in H. discriminate.
Defined.

End GroupingMore.

(** ** The text of a rendering *)

Section RenderingMore.

Lemma foldM_appendResource (RegExp : string -> option (string -> bool))
    (resources : list TerraformResource) (hcl : string) :
  (forall resource, In resource resources -> patternsCompile RegExp resource) ->
  foldM (appendResource RegExp) resources hcl =
  Some (hcl +:+ blocksText RegExp resources).
Proof.
  revert hcl; induction resources as [|r resources IH]; intros hcl H;
    cbn [foldM blocksText fold_right].
  - now rewrite append_empty_r.
  - rewrite (appendResource_block RegExp r hcl (H r (or_introl eq_refl))).
    rewrite IH by (intros r' Hr'; apply H; now right).
    fold (blocksText RegExp resources). now rewrite append_assoc.
Qed.

(** X11. When the patterns of every resource are regular expressions
    (and the numbers among the fields safe integers), the text renderer
    throws if a type key of the list names a member of
    [Object.prototype], and otherwise returns the sequence of the blocks
    of the resources, grouped by type key: each block is the opening
    line [resource "<type>" "<name>" {], one line [<key> = <value>] for
    each field the policy emits and the closing brace, and the blocks are
    those of the resources given, each exactly once. *)
Theorem generateHclResources_text
    (RegExp : string -> option (string -> bool))
    (resources : list TerraformResource) :
  (forall resource, In resource resources ->
     patternsCompile RegExp resource /\ safeFields resource = true) ->
  (groupable resources = false ->
   generateHclResources RegExp resources = None) /\
  (groupable resources = true ->
   exists emitted,
     emittedResources resources = Some emitted /\
     emitted ≡ₚ resources /\
     generateHclResources RegExp resources = Some (blocksText RegExp emitted)).
Proof.
  intros H. split; intros Hg.
  - apply groupResourcesByType_None in Hg. unfold generateHclResources.
    now rewrite Hg.
  - destruct (groupResourcesByType resources) as [grouped|] eqn:E.
    + exists (flat_map snd (entries grouped)).
      assert (He : emittedResources resources = Some (flat_map snd (entries grouped)))
        by (unfold emittedResources; now rewrite E).
      pose proof (emittedResources_permutation _ _ He) as Hp.
      split; [exact He|]. split; [exact Hp|].
      rewrite generateHclResources_blockwise, He.
      apply (foldM_appendResource RegExp _ EmptyString).
      intros r Hr. apply H. apply (Permutation_in _ Hp Hr).
    + apply groupResourcesByType_None in E. congruence.
Qed.

Lemma generateHclResources_text_witness :
  generateHclResources literalRegExp [emptyAndFull ["a"]; emptyAndFull []] =
  Some ("resource " +:+ dquote +:+ "aws_thing" +:+ dquote +:+ " "
        +:+ dquote +:+ "x" +:+ dquote +:+ " {" +:+ nl
        +:+ "  a = " +:+ dquote +:+ dquote +:+ nl
        +:+ "  b = " +:+ dquote +:+ "x" +:+ dquote +:+ nl
        +:+ "}" +:+ nl +:+ nl
        +:+ "resource " +:+ dquote +:+ "aws_thing" +:+ dquote +:+ " "
        +:+ dquote +:+ "x" +:+ dquote +:+ " {" +:+ nl
        +:+ "  b = " +:+ dquote +:+ "x" +:+ dquote +:+ nl
        +:+ "}" +:+ nl +:+ nl).
Proof.
  assert (H : forall resource,
            In resource [emptyAndFull ["a"]; emptyAndFull []] ->
            patternsCompile literalRegExp resource /\ safeFields resource = true).
  { intros r [<-|[<-|[]]]; (split; [|reflexivity]).
    - intros p [<-|[]]. exists (includes "a"). reflexivity.
    - intros p []. }
  destruct (proj2 (generateHclResources_text literalRegExp _ H) eq_refl)
    as (emitted & He & _ & Ht).
  rewrite Ht. vm_compute in He. injection He as <-. vm_compute. reflexivity.
Defined.

Lemma resourceBlock_without_patterns
    (RegExp RegExp' : string -> option (string -> bool))
    (resource : TerraformResource) :
  ignoreKeys resource = [] -> allowEmptyValues resource = [] ->
  resourceBlock RegExp resource = resourceBlock RegExp' resource.
Proof.
  intros Hi Ha. unfold resourceBlock. f_equal. f_equal.
  unfold emittedLines, emitted. rewrite Hi, Ha. reflexivity.
Qed.

(** X12. A resource list without [ignoreKeys] and [allowEmptyValues],
    as the adapters build it with [createResource], whose type keys name
    no member of [Object.prototype], is rendered without any regular
    expression being compiled: the renderer does not throw and gives the
    same text whatever [RegExp] does. *)
Theorem rendering_without_patterns (resources : list TerraformResource) :
  (forall resource, In resource resources ->
     ignoreKeys resource = [] /\ allowEmptyValues resource = []) ->
  groupable resources = true ->
  exists hcl,
    forall RegExp : string -> option (string -> bool),
      generateHclResources RegExp resources = Some hcl.
Proof.
  intros H Hg.
  destruct (groupResourcesByType resources) as [grouped|] eqn:E;
    [|apply groupResourcesByType_None in E; congruence].
  assert (He : emittedResources resources = Some (flat_map snd (entries grouped)))
    by (unfold emittedResources; now rewrite E).
  pose proof (emittedResources_permutation _ _ He) as Hp.
  set (emitted := flat_map snd (entries grouped)) in *.
  exists (blocksText (fun _ => None) emitted).
  intros RegExp.
  assert (Hc : forall resource, In resource resources ->
                 patternsCompile RegExp resource).
  { intros r Hr p Hp'. destruct (H r Hr) as [Hi Ha]. rewrite Hi, Ha in Hp'.
    destruct Hp'. }
  assert (Hin : forall r, In r emitted -> In r resources)
    by (intros r; apply Permutation_in, Hp).
  rewrite generateHclResources_blockwise, He.
  rewrite (foldM_appendResource RegExp emitted EmptyString)
    by (intros r Hr; apply Hc, Hin, Hr).
  cbn [String.append]. f_equal. clear He Hp.
  induction emitted as [|r l IH]; [reflexivity|].
  cbn [blocksText fold_right]. fold (blocksText RegExp l).
  fold (blocksText (fun _ : string => @None (string -> bool)) l).
  rewrite IH by (intros r' Hr'; apply Hin; now right).
  destruct (H r (Hin r (or_introl eq_refl))) as [Hi Ha].
  now rewrite (resourceBlock_without_patterns RegExp (fun _ => None) r Hi Ha).
Qed.

Lemma rendering_without_patterns_witness :
  exists hcl,
    forall RegExp : string -> option (string -> bool),
      generateHclResources RegExp [instance1; instance3] = Some hcl.
Proof.
  apply rendering_without_patterns; [|reflexivity].
  intros r [<-|[<-|[]]]; split; reflexivity.
Defined.





End RenderingMore.

(** ** Values in the text encoding *)

Section FormatMore.

Lemma getSubstitution_plain (matched before after template : string) :
  hasChar "$" template = false ->
  getSubstitution matched before after template = template.
Proof.
  induction template as [|c t IH]; [reflexivity|]. cbn [hasChar getSubstitution].
  intros H. apply orb_false_iff in H as [Hc Ht]. now rewrite Hc, (IH Ht).
Qed.

Lemma replaceCharsFrom_before (cls : ascii -> bool) (template b1 b2 s : string) :
  hasChar "$" template = false ->
  replaceCharsFrom cls template b1 s = replaceCharsFrom cls template b2 s.
Proof.
  intros Ht. revert b1 b2; induction s as [|c t IH]; intros b1 b2; [reflexivity|].
  cbn [replaceCharsFrom]. rewrite !(getSubstitution_plain _ _ _ _ Ht).
  now rewrite (IH (b1 +:+ String c EmptyString) (b2 +:+ String c EmptyString)).
Qed.

Lemma replaceChars_append (cls : ascii -> bool) (template x y : string) :
  hasChar "$" template = false ->
  replaceChars cls template (x +:+ y) =
  replaceChars cls template x +:+ replaceChars cls template y.
Proof.
  intros Ht. unfold replaceChars. generalize EmptyString at 1 2.
  induction x as [|c t IH]; intros before.
  - cbn [String.append replaceCharsFrom]. now apply replaceCharsFrom_before.
  - cbn [String.append replaceCharsFrom]. rewrite IH.
    rewrite !(getSubstitution_plain _ _ _ _ Ht). now rewrite append_assoc.
Qed.

Lemma replaceChars_untouched (d : ascii) (template before s : string) :
  hasChar d s = false ->
  replaceCharsFrom (fun c => Ascii.eqb c d) template before s = s.
Proof.
  revert before; induction s as [|c t IH]; intros before; [reflexivity|].
  cbn [hasChar replaceCharsFrom]. intros H. apply orb_false_iff in H as [Hc Ht].
  now rewrite Hc, (IH _ Ht).
Qed.

Lemma escapeString_append (x y : string) :
  escapeString (x +:+ y) = escapeString x +:+ escapeString y.
Proof.
  unfold escapeString.
  rewrite (replaceChars_append _ (backslash +:+ dquote)) by reflexivity.
  now rewrite (replaceChars_append _ (backslash +:+ "n")) by reflexivity.
Qed.

(** X14. A string value is rendered between two double quotes, on one
    line; a string that holds neither a double quote nor a newline is
    rendered as it is. *)
Theorem formatHclValue_string (s : string) :
  exists body,
    formatHclValue (VStr s) = dquote +:+ body +:+ dquote /\
    hasChar (ascii_of_nat 10) body = false /\
    (hasChar (ascii_of_nat 34) s = false ->
     hasChar (ascii_of_nat 10) s = false -> body = s).
Proof.
  exists (escapeString s). split; [reflexivity|]. split; [apply escaped_newlines|].
  intros Hq Hn. unfold escapeString, replaceChars.
  now rewrite (replaceChars_untouched _ _ _ s Hq), (replaceChars_untouched _ _ _ s Hn).
Qed.

(** X15. The escaping of strings loses information: a newline and the
    two characters backslash, [n] are rendered alike, so two different
    strings can have the same text (the backslash itself is not
    escaped). *)
Theorem formatHclValue_newline_ambiguous (a b : string) :
  formatHclValue (VStr (a +:+ nl +:+ b)) =
  formatHclValue (VStr (a +:+ backslash +:+ "n" +:+ b)).
Proof.
  cbn [formatHclValue]. do 2 f_equal.
  rewrite !escapeString_append. reflexivity.
Qed.

(** X16. [escapeAwsInterpolation] returns every string unchanged, the
    replacement ['$${'] standing for the very text it replaces, and
    throws on a value that is no string. *)
Theorem escapeAwsInterpolation_result (policy : value) :
  escapeAwsInterpolation policy =
  match policy with
  | VStr s => Some s
  | _ => None
  end.
Proof.
  destruct policy; try reflexivity. apply escapeAwsInterpolation_unchanged.
Qed.

End FormatMore.

(** ** The hooks, continued *)

Section HooksMore.
Implicit Types (r resource : TerraformResource).

Lemma sameButAttributes_refl r : sameButAttributes r r.
Proof. now destruct r. Qed.

Lemma sameButAttributes_with r (a : obj) : sameButAttributes r (withAttributes r a).
Proof. reflexivity. Qed.

Lemma wrapPolicy_same (key : string) r r' :
  wrapPolicy key r = Some r' -> sameButAttributes r r'.
Proof.
  unfold wrapPolicy. destruct (escapeAwsInterpolation _); [|discriminate].
  intros [= <-]. apply sameButAttributes_with.
Qed.

Lemma iamStep_same r r' : iamStep r = Some r' -> sameButAttributes r r'.
Proof.
  unfold iamStep.
  repeat match goal with
         | |- context [if ?b then _ else _] => destruct b
         end;
    try (intros [= <-]; apply sameButAttributes_refl || apply sameButAttributes_with);
    apply wrapPolicy_same.
Qed.

Lemma snsStep_same r r' : snsStep r = Some r' -> sameButAttributes r r'.
Proof.
  unfold snsStep. destruct (_ && _);
    [apply wrapPolicy_same | intros [= <-]; apply sameButAttributes_refl].
Qed.

Lemma sameButAttributes_trans r1 r2 r3 :
  sameButAttributes r1 r2 -> sameButAttributes r2 r3 -> sameButAttributes r1 r3.
Proof. unfold sameButAttributes. intros H12 ->. rewrite H12. reflexivity. Qed.

Lemma route53HealthCheck_same r : sameButAttributes r (route53HealthCheck r).
Proof.
  unfold route53HealthCheck.
  destruct (_ || _); [|apply sameButAttributes_refl].
  destruct (truthy _); [apply sameButAttributes_with | apply sameButAttributes_refl].
Qed.

Lemma route53Step_same (st : list TerraformResource) r :
  sameButAttributes r (route53Step st r).
Proof.
  unfold route53Step.
  set (r1 := if String.eqb (res_type r) "aws_route53_record"
             then route53Record st r else r).
  assert (H1 : sameButAttributes r r1).
  { subst r1. destruct (String.eqb _ _);
      [apply sameButAttributes_with | apply sameButAttributes_refl]. }
  destruct (String.eqb (res_type r1) _); [|exact H1].
  eapply sameButAttributes_trans; [exact H1 | apply route53HealthCheck_same].
Qed.

Lemma ec2CompleteStep_same r : sameButAttributes r (ec2CompleteStep r).
Proof.
  unfold ec2CompleteStep.
  destruct (String.eqb _ _); [|apply sameButAttributes_refl].
  destruct (truthy _); [|apply sameButAttributes_refl].
  destruct (getProp _ _); try apply sameButAttributes_refl.
  apply sameButAttributes_with.
Qed.

Lemma Forall2_map_same {A : Type} (P : A -> A -> Prop) (f : A -> A) (l : list A) :
  (forall x, P x (f x)) -> Forall2 P l (map f l).
Proof. intros H. induction l; constructor; auto. Qed.

(** X17. No hook adds, drops or reorders resources, and no hook
    changes anything of a resource but its [attributes]: whenever a hook
    returns, its result has, position by position, the id, type, name,
    provider, metadata and patterns of the resources it was given. *)
Theorem hooks_change_attributes_only (k : ServiceKind)
    (resources out : list TerraformResource) :
  (postConvertHook k resources = Some out ->
   Forall2 sameButAttributes resources out) /\
  (EC2Complete_postConvertHook resources = Some out ->
   Forall2 sameButAttributes resources out).
Proof.
  split.
  - destruct k; cbn [postConvertHook].
    + intros [= <-]. apply Forall2_same_length_lookup_2; [reflexivity|].
      intros i x y Hx Hy. rewrite Hx in Hy. injection Hy as <-.
      apply sameButAttributes_refl.
    + unfold IAM_postConvertHook. intros H. apply mapM_Some_1 in H.
      eapply Forall2_impl; [exact H|]. apply iamStep_same.
    + unfold SNS_postConvertHook. intros H. apply mapM_Some_1 in H.
      eapply Forall2_impl; [exact H|]. apply snsStep_same.
    + rewrite Route53_postConvertHook_map. intros [= <-].
      apply Forall2_map_same. apply route53Step_same.
    + intros [= <-]. apply Forall2_same_length_lookup_2; [reflexivity|].
      intros i x y Hx Hy. rewrite Hx in Hy. injection Hy as <-.
      apply sameButAttributes_refl.
  - unfold EC2Complete_postConvertHook. intros [= <-].
    apply Forall2_map_same. apply ec2CompleteStep_same.
Qed.

Lemma hooks_change_attributes_only_witness :
  exists out,
    postConvertHook Route53Service [record123; zone123] = Some out /\
    Forall2 sameButAttributes [record123; zone123] out.
Proof.
  destruct (postConvertHook Route53Service [record123; zone123]) as [out|] eqn:H.
  - exists out. split; [reflexivity|].
    exact (proj1 (hooks_change_attributes_only Route53Service _ out) H).
  - vm_compute in H. discriminate.
Defined.

Lemma wrapPolicy_None (key : string) r :
  wrapPolicy key r = None <-> isString (getProp key (attributes r)) = false.
Proof.
  unfold wrapPolicy.
  destruct (getProp key (attributes r)); simpl; split; congruence.
Qed.

Lemma iamStep_None r : iamStep r = None <-> iamOffending r = true.
Proof.
  unfold iamStep, iamOffending, isIamPolicyType.
  destruct (String.eqb (res_type r) "aws_iam_policy"
            || String.eqb (res_type r) "aws_iam_user_policy"
            || String.eqb (res_type r) "aws_iam_group_policy"
            || String.eqb (res_type r) "aws_iam_role_policy").
  - destruct (truthy (getProp "policy" (attributes r))); cbn [andb].
    + rewrite wrapPolicy_None. now destruct (isString _).
    + split; discriminate.
  - destruct (String.eqb (res_type r) "aws_iam_role"); cbn [andb].
    + destruct (truthy (getProp "assume_role_policy" (attributes r))); cbn [andb].
      * rewrite wrapPolicy_None. now destruct (isString _).
      * destruct (String.eqb (res_type r) "aws_iam_instance_profile");
          split; discriminate.
    + destruct (String.eqb (res_type r) "aws_iam_instance_profile");
        split; discriminate.
Qed.

(** X18. The IAM hook throws exactly when some resource carries, at a
    place the hook wraps (the [policy] of the four policy types, the
    [assume_role_policy] of a role), a truthy value that is no string;
    on any other resource list it returns. *)
Theorem IAM_postConvertHook_throws (resources : list TerraformResource) :
  IAM_postConvertHook resources = None <-> existsb iamOffending resources = true.
Proof.
  unfold IAM_postConvertHook. rewrite existsb_exists. split.
  - intros H. apply mapM_None_1, Exists_exists in H as (r & Hin & Hr).
    exists r. split; [now apply list_elem_of_In | now apply iamStep_None].
  - intros (r & Hin & Hr). apply mapM_None_2, Exists_exists.
    exists r. split; [now apply list_elem_of_In | now apply iamStep_None].
Qed.

End HooksMore.

(** ** Deleting properties *)

Section DeleteProps.
Context {A : Type}.
Implicit Types (o : props A) (k : string).

Lemma fresh_lookup_None k o : ~ In k (map fst o) -> lookupProp k o = None.
Proof.
  induction o as [|[k0 v0] o IH]; simpl; [reflexivity|]. intros H.
  destruct (String.eqb_spec k0 k) as [->|_]; [exfalso; apply H; now left|].
  apply IH. intros Hin. apply H. now right.
Qed.

Lemma deleteProp_absent k o : lookupProp k o = None -> deleteProp k o = o.
Proof.
  induction o as [|[k0 v0] o IH]; simpl; [reflexivity|].
  destruct (String.eqb k0 k); [discriminate|]. intros H. now rewrite IH.
Qed.

Lemma deleteProp_removes k o : uniqueKeys o -> lookupProp k (deleteProp k o) = None.
Proof.
  unfold uniqueKeys. induction o as [|[k0 v0] o IH]; simpl; [reflexivity|].
  intros Hnd. apply NoDup_cons in Hnd as [Hfresh Hnd].
  destruct (String.eqb_spec k0 k) as [->|Hne].
  - apply fresh_lookup_None. now rewrite <- list_elem_of_In.
  - simpl. destruct (String.eqb_spec k0 k); [contradiction|]. now apply IH.
Qed.

Lemma deleteProp_idempotent k o :
  uniqueKeys o -> deleteProp k (deleteProp k o) = deleteProp k o.
Proof. intros H. now apply deleteProp_absent, deleteProp_removes. Qed.

Lemma deleteProp_keys k k' o :
  In k' (map fst (deleteProp k o)) -> In k' (map fst o).
Proof.
  induction o as [|[k0 v0] o IH]; simpl; [tauto|].
  destruct (String.eqb k0 k); simpl; [tauto|]. intros [?|?]; auto.
Qed.

Lemma deleteProp_uniqueKeys k o : uniqueKeys o -> uniqueKeys (deleteProp k o).
Proof.
  unfold uniqueKeys. induction o as [|[k0 v0] o IH]; simpl; [trivial|].
  intros Hnd. apply NoDup_cons in Hnd as [Hfresh Hnd].
  destruct (String.eqb k0 k); [exact Hnd|]. simpl. apply NoDup_cons. split.
  - rewrite list_elem_of_In in *. intros Hin. apply Hfresh.
    now apply deleteProp_keys in Hin.
  - now apply IH.
Qed.

End DeleteProps.

(** ** The Route53 hook, run twice *)

Section Route53Twice.
Implicit Types (r z : TerraformResource) (st : list TerraformResource).

Lemma find_none_all {B : Type} (f : B -> bool) (l : list B) :
  (forall x, In x l -> f x = false) -> List.find f l = None.
Proof.
  induction l as [|x l IH]; intros H; [reflexivity|]. cbn [List.find].
  rewrite (H x (or_introl eq_refl)). apply IH. intros y Hy. apply H. now right.
Qed.

Lemma route53Step_cases st r :
  route53Step st r =
  if String.eqb (res_type r) "aws_route53_record" then route53Record st r
  else if String.eqb (res_type r) "aws_route53_health_check"
       then route53HealthCheck r else r.
Proof.
  unfold route53Step.
  destruct (String.eqb (res_type r) "aws_route53_record") eqn:E; [|reflexivity].
  apply String.eqb_eq in E. unfold route53Record at 1.
  cbn [res_type withAttributes]. rewrite E. reflexivity.
Qed.

Lemma route53Record_twice st r :
  uniqueKeys (attributes r) ->
  (forall z z', In z st -> In z' st ->
                isZoneFor (VStr (zoneReference z)) z' = false) ->
  route53Record st (route53Record st r) = route53Record st r.
Proof.
  intros Hu Hz. unfold route53Record at 1.
  set (q := route53Record st r).
  assert (Hadd : additionalFields q = additionalFields r) by reflexivity.
  rewrite Hadd.
  assert (Hq : q = route53Record st r) by reflexivity.
  unfold route53Record in Hq.
  destruct (List.find (isZoneFor (getProp "zone_id" (attributes r))) st)
    as [z|] eqn:Hf.
  - set (attrs1 := setProp "zone_id" (VStr (zoneReference z)) (attributes r)) in Hq.
    assert (Hu1 : uniqueKeys attrs1) by now apply setProp_uniqueKeys.
    assert (Hzid : getProp "zone_id" (attributes q) = VStr (zoneReference z)).
    { rewrite Hq. cbn [attributes withAttributes].
      destruct (truthy _); [rewrite getProp_deleteProp_other by reflexivity|];
        apply getProp_setProp. }
    rewrite Hzid.
    rewrite (find_none_all (isZoneFor (VStr (zoneReference z))) st)
      by (intros z' Hz'; apply Hz; [now apply (find_some _ _ Hf) | exact Hz']).
    rewrite Hq at 2. rewrite Hq at 1. cbn [attributes withAttributes].
    destruct (truthy _); [|reflexivity].
    now rewrite deleteProp_idempotent.
  - assert (Hzid : getProp "zone_id" (attributes q) =
                   getProp "zone_id" (attributes r)).
    { rewrite Hq. cbn [attributes withAttributes].
      destruct (truthy _); [now rewrite getProp_deleteProp_other | reflexivity]. }
    rewrite Hzid, Hf.
    rewrite Hq at 2. rewrite Hq at 1. cbn [attributes withAttributes].
    destruct (truthy _); [|reflexivity].
    now rewrite deleteProp_idempotent.
Qed.

Lemma route53HealthCheck_twice r :
  uniqueKeys (attributes r) ->
  route53HealthCheck (route53HealthCheck r) = route53HealthCheck r.
Proof.
  intros Hu. unfold route53HealthCheck at 2.
  destruct (negb _ || _) eqn:E1; [|unfold route53HealthCheck; now rewrite E1].
  destruct (truthy (getProp "child_health_threshold" _)) eqn:E2;
    [|unfold route53HealthCheck; now rewrite E1, E2].
  unfold route53HealthCheck. cbn [additionalFields withAttributes attributes].
  rewrite E1, E2. now rewrite deleteProp_idempotent.
Qed.

Lemma route53Step_twice st r :
  uniqueKeys (attributes r) ->
  (forall z z', In z st -> In z' st ->
                isZoneFor (VStr (zoneReference z)) z' = false) ->
  route53Step st (route53Step st r) = route53Step st r.
Proof.
  intros Hu Hz. rewrite (route53Step_cases st r).
  destruct (String.eqb (res_type r) "aws_route53_record") eqn:E1.
  - rewrite route53Step_cases. unfold route53Record at 1.
    cbn [res_type withAttributes]. rewrite E1.
    now apply route53Record_twice.
  - destruct (String.eqb (res_type r) "aws_route53_health_check") eqn:E2.
    + rewrite route53Step_cases.
      assert (Ht : res_type (route53HealthCheck r) = res_type r).
      { unfold route53HealthCheck.
        destruct (_ || _); [destruct (truthy _)|]; reflexivity. }
      rewrite Ht, E1, E2. now apply route53HealthCheck_twice.
    + now rewrite route53Step_cases, E1, E2.
Qed.

(** X19. Unlike the policy hooks, the Route53 hook is idempotent: on
    resources whose [attributes] bind no key twice, and provided no zone
    of the set has for native id a text of the form of a reference to a
    zone of the set, running the hook on its own result changes
    nothing. *)
Theorem Route53_postConvertHook_idempotent
    (resources out : list TerraformResource) :
  (forall r, In r resources -> uniqueKeys (attributes r)) ->
  (forall z z', In z resources -> In z' resources ->
                isZoneFor (VStr (zoneReference z)) z' = false) ->
  Route53_postConvertHook resources = Some out ->
  Route53_postConvertHook out = Some out.
Proof.
  intros Hu Hz. rewrite !Route53_postConvertHook_map. intros [= <-]. f_equal.
  assert (Hview : map zoneView (map (route53Step resources) resources) =
                  map zoneView resources).
  { rewrite map_map. apply map_ext. intros r. apply route53Step_view. }
  rewrite map_map. apply map_ext_in. intros r Hr.
  rewrite (route53Step_state _ resources _ Hview).
  apply route53Step_twice; [now apply Hu | exact Hz].
Qed.

Lemma Route53_postConvertHook_idempotent_witness :
  exists out,
    Route53_postConvertHook [zone123; aliasRecord; orphanRecord] = Some out /\
    Route53_postConvertHook out = Some out.
Proof.
  destruct (Route53_postConvertHook [zone123; aliasRecord; orphanRecord])
    as [out|] eqn:H; [|vm_compute in H; discriminate].
  exists out. split; [reflexivity|].
  apply (Route53_postConvertHook_idempotent [zone123; aliasRecord; orphanRecord]);
    [| |exact H].
  - intros r [<-|[<-|[<-|[]]]]; apply (bool_decide_unpack _); vm_compute; reflexivity.
  - intros z z' [<-|[<-|[<-|[]]]] [<-|[<-|[<-|[]]]]; vm_compute; reflexivity.
Defined.

End Route53Twice.

(** ** The merged mapping *)

Section MergedMore.

Lemma unique_binding {A : Type} (k : string) (v v' : A) (o : props A) :
  uniqueKeys o -> In (k, v) o -> In (k, v') o -> v = v'.
Proof.
  unfold uniqueKeys. induction o as [|[k0 v0] o IH]; simpl; [tauto|].
  intros Hnd. apply NoDup_cons in Hnd as [Hfresh Hnd].
  rewrite list_elem_of_In in Hfresh.
  intros [[= -> ->]|H1] [[= ->]|H2]; try congruence.
  - exfalso. apply Hfresh. apply (in_map fst) in H2. exact H2.
  - exfalso. subst. apply Hfresh. apply (in_map fst) in H1. exact H1.
  - now apply IH.
Qed.

Lemma lookupProp_rev {A : Type} (k : string) (o : props A) :
  uniqueKeys o -> lookupProp k (rev o) = lookupProp k o.
Proof.
  intros Hu. destruct (lookupProp k o) as [v|] eqn:E.
  - apply lookupProp_In in E. pose proof E as Er. apply in_rev in Er.
    destruct (In_lookupProp _ _ _ Er) as [v' Hv']. rewrite Hv'. f_equal.
    apply lookupProp_In, in_rev in Hv'. exact (unique_binding k v' v o Hu Hv' E).
  - apply fresh_lookup_None. apply lookup_None_fresh in E.
    rewrite map_rev, <- in_rev. exact E.
Qed.

Lemma assignAll_uniqueKeys {A : Type} (target source : props A) :
  uniqueKeys target -> uniqueKeys (assignAll target source).
Proof.
  unfold assignAll. revert target.
  induction source as [|[k v] source IH]; intros target H; [exact H|].
  cbn [fold_left fst snd]. now apply IH, setProp_uniqueKeys.
Qed.

(** X20. In the mapping the renderer walks, no key is bound twice, so a
    block never holds a field twice; and when [attributes] and
    [additionalFields] each bind no key twice, a key of
    [additionalFields] has the value [additionalFields] gives it, and
    any other key the value [attributes] gives it. *)
Theorem allAttributes_precedence (resource : TerraformResource) :
  uniqueKeys (allAttributes resource) /\
  (uniqueKeys (attributes resource) ->
   uniqueKeys (additionalFields resource) ->
   forall key,
     getProp key (allAttributes resource) =
     if hasProp key (additionalFields resource)
     then getProp key (additionalFields resource)
     else getProp key (attributes resource)).
Proof.
  split.
  - unfold allAttributes, spread. apply assignAll_uniqueKeys, assignAll_uniqueKeys.
    constructor.
  - intros Ha Hb key. unfold getProp, allAttributes, spread, hasProp.
    rewrite !lookupProp_assignAll, (lookupProp_rev key _ Hb), (lookupProp_rev key _ Ha).
    destruct (lookupProp key (additionalFields resource)); [reflexivity|].
    now destruct (lookupProp key (attributes resource)).
Qed.

Lemma allAttributes_precedence_witness :
  getProp "zone_id" (allAttributes zone123) = VStr "Z123" /\
  getProp "name" (allAttributes zone123) = VStr "example.com.".
Proof.
  assert (Ha : uniqueKeys (attributes zone123))
    by (apply (bool_decide_unpack _); vm_compute; reflexivity).
  assert (Hb : uniqueKeys (additionalFields zone123))
    by (apply (bool_decide_unpack _); vm_compute; reflexivity).
  split.
  - rewrite (proj2 (allAttributes_precedence zone123) Ha Hb "zone_id"). reflexivity.
  - rewrite (proj2 (allAttributes_precedence zone123) Ha Hb "name"). reflexivity.
Defined.

End MergedMore.

(** ** The clean-up of the root block device *)

Section RootBlockDevice.

Lemma updateProp_same {A : Type} (k : string) (v : A) (o : props A) :
  lookupProp k o = Some v -> updateProp k v o = o.
Proof.
  induction o as [|[k0 v0] o IH]; simpl; [reflexivity|].
  destruct (String.eqb_spec k0 k) as [->|_].
  - now intros [= ->].
  - intros H. now rewrite IH.
Qed.

Lemma setProp_twice {A : Type} (k : string) (v : A) (o : props A) :
  setProp k v (setProp k v o) = setProp k v o.
Proof.
  unfold setProp at 1. unfold hasProp. rewrite lookupProp_setProp.
  apply updateProp_same, lookupProp_setProp.
Qed.

Lemma cleanRootBlockDevice_lookup (fields : obj) (key : string) :
  uniqueKeys fields ->
  lookupProp key (cleanRootBlockDevice fields) =
  if String.eqb key "iops" && negb (supportsIops (getProp "volume_type" fields))
  then None
  else if String.eqb key "throughput"
          && negb (strictEq (getProp "volume_type" fields) (VStr "gp3"))
  then None
  else lookupProp key fields.
Proof.
  intros Hu. unfold cleanRootBlockDevice.
  set (b1 := supportsIops (getProp "volume_type" fields)).
  set (b2 := strictEq (getProp "volume_type" fields) (VStr "gp3")).
  destruct (String.eqb_spec key "iops") as [->|Hi].
  - cbn [andb String.eqb Ascii.eqb Bool.eqb].
    destruct b1, b2; cbn [negb];
      rewrite ?(lookupProp_deleteProp_other "throughput" "iops") by reflexivity;
      rewrite ?deleteProp_removes by exact Hu; reflexivity.
  - cbn [andb]. destruct (String.eqb_spec key "throughput") as [->|Ht].
    + destruct b1, b2; cbn [negb andb];
        rewrite ?deleteProp_removes by (try apply deleteProp_uniqueKeys; exact Hu);
        rewrite ?(lookupProp_deleteProp_other "iops" "throughput") by reflexivity;
        reflexivity.
    + assert (Hi' : String.eqb "iops" key = false)
        by (destruct (String.eqb_spec "iops" key); congruence).
      assert (Ht' : String.eqb "throughput" key = false)
        by (destruct (String.eqb_spec "throughput" key); congruence).
      destruct b1, b2; cbn [negb andb];
        rewrite ?(lookupProp_deleteProp_other "throughput" key _ Ht');
        rewrite ?(lookupProp_deleteProp_other "iops" key _ Hi'); reflexivity.
Qed.

Lemma cleanRootBlockDevice_twice (fields : obj) :
  uniqueKeys fields ->
  cleanRootBlockDevice (cleanRootBlockDevice fields) = cleanRootBlockDevice fields.
Proof.
  intros Hu.
  assert (Hvt : getProp "volume_type" (cleanRootBlockDevice fields) =
                getProp "volume_type" fields).
  { unfold getProp. now rewrite (cleanRootBlockDevice_lookup fields "volume_type" Hu). }
  unfold cleanRootBlockDevice at 1. rewrite Hvt.
  pose proof (cleanRootBlockDevice_lookup fields "iops" Hu) as Hi.
  pose proof (cleanRootBlockDevice_lookup fields "throughput" Hu) as Ht.
  cbn [String.eqb Ascii.eqb Bool.eqb andb] in Hi, Ht.
  destruct (supportsIops (getProp "volume_type" fields)) eqn:E1;
    destruct (strictEq (getProp "volume_type" fields) (VStr "gp3")) eqn:E2;
    cbn [negb] in *; try reflexivity.
  - now apply deleteProp_absent.
  - now apply deleteProp_absent.
  - rewrite (deleteProp_absent "iops" _ Hi). now apply deleteProp_absent.
Qed.

(** X21. After the hook of the complete EC2 service, the root block
    device of an instance keeps its [iops] only for the volume types
    [io1], [io2] and [gp3] and its [throughput] only for [gp3]; the other
    fields of the device keep their values; and running the step again
    changes nothing. The device is a mapping that binds no key twice. *)
Theorem root_block_device_cleanup (resource : TerraformResource) (fields : obj) :
  res_type resource = "aws_instance" ->
  getProp "root_block_device" (attributes resource) = VObj fields ->
  uniqueKeys fields ->
  exists fields',
    getProp "root_block_device" (attributes (ec2CompleteStep resource)) = VObj fields' /\
    lookupProp "iops" fields' =
      (if supportsIops (getProp "volume_type" fields)
       then lookupProp "iops" fields else None) /\
    lookupProp "throughput" fields' =
      (if strictEq (getProp "volume_type" fields) (VStr "gp3")
       then lookupProp "throughput" fields else None) /\
    (forall key, String.eqb key "iops" = false ->
                 String.eqb key "throughput" = false ->
                 lookupProp key fields' = lookupProp key fields) /\
    ec2CompleteStep (ec2CompleteStep resource) = ec2CompleteStep resource.
Proof.
  intros Ht Hd Hu. exists (cleanRootBlockDevice fields).
  assert (Hstep : ec2CompleteStep resource =
                  withAttributes resource
                    (setProp "root_block_device" (VObj (cleanRootBlockDevice fields))
                       (attributes resource))).
  { unfold ec2CompleteStep. now rewrite Ht, Hd. }
  split; [rewrite Hstep; apply getProp_setProp|].
  split.
  { rewrite (cleanRootBlockDevice_lookup fields "iops" Hu).
    cbn [String.eqb Ascii.eqb Bool.eqb andb]. now destruct (supportsIops _). }
  split.
  { rewrite (cleanRootBlockDevice_lookup fields "throughput" Hu).
    cbn [String.eqb Ascii.eqb Bool.eqb andb]. now destruct (strictEq _ _). }
  split.
  { intros key Hi Hth. rewrite (cleanRootBlockDevice_lookup fields key Hu).
    now rewrite Hi, Hth. }
  rewrite Hstep at 1. unfold ec2CompleteStep at 1.
  cbn [res_type attributes withAttributes]. rewrite Ht, getProp_setProp.
  cbn [String.eqb Ascii.eqb Bool.eqb truthy].
  rewrite (cleanRootBlockDevice_twice fields Hu), setProp_twice. now rewrite Hstep.
Qed.

Lemma root_block_device_cleanup_witness :
  exists fields',
    getProp "root_block_device" (attributes (ec2CompleteStep gp2Instance)) = VObj fields' /\
    lookupProp "iops" fields' = None /\
    lookupProp "throughput" fields' = None /\
    lookupProp "device_name" fields' = Some (VStr "/dev/sda1").
Proof.
  assert (Hu : uniqueKeys (literal [("device_name", VStr "/dev/sda1");
                                    ("volume_type", VStr "gp2");
                                    ("iops", VNum 100); ("throughput", VNum 125)]))
    by (apply (bool_decide_unpack _); vm_compute; reflexivity).
  destruct (root_block_device_cleanup gp2Instance _ eq_refl eq_refl Hu)
    as (fields' & H1 & H2 & H3 & H4 & _).
  exists fields'. split; [exact H1|]. split; [exact H2|]. split; [exact H3|].
  now rewrite (H4 "device_name" eq_refl eq_refl).
Defined.

End RootBlockDevice.

(** ** The orchestrator, continued *)

Section OrchestratorMore.

Lemma filter_all {A : Type} (l : list A) : List.filter (fun _ => true) l = l.
Proof. induction l as [|x l IH]; [reflexivity|]. cbn [List.filter]. now rewrite IH. Qed.

Lemma filter_twice {A : Type} (f g : A -> bool) (l : list A) :
  List.filter g (List.filter f l) = List.filter (fun x => f x && g x) l.
Proof.
  induction l as [|x l IH]; [reflexivity|]. cbn [List.filter].
  destruct (f x); cbn [andb List.filter]; [destruct (g x)|]; now rewrite IH.
Qed.

Lemma existsb_eqb_In (s : string) (l : list string) :
  existsb (String.eqb s) l = true <-> In s l.
Proof.
  rewrite existsb_exists. split.
  - intros (x & Hin & Hx). apply String.eqb_eq in Hx. now subst.
  - intros H. exists s. split; [exact H | apply String.eqb_refl].
Qed.

Lemma filterServices_filter (requested available excludes : list string) :
  filterServices requested available excludes =
    List.filter
      (fun service =>
         (Nat.eqb (length requested) 0 || existsb (String.eqb "*") requested
          || existsb (String.eqb service) requested)
         && negb (existsb (String.eqb service) excludes))
      available.
Proof.
  unfold filterServices.
  set (sel := fun service => existsb (String.eqb service) requested).
  set (kept := fun service => negb (existsb (String.eqb service) excludes)).
  set (c1 := (0 <? length requested)%nat && negb (existsb (String.eqb "*") requested)).
  set (c2 := (0 <? length excludes)%nat).
  transitivity (List.filter (fun s => negb c2 || kept s)
                  (List.filter (fun s => negb c1 || sel s) available)).
  { destruct c1, c2; cbn [negb orb]; rewrite ?filter_all; reflexivity. }
  rewrite filter_twice. apply filter_ext. intros a. subst sel kept c1 c2.
  destruct requested as [|q requested], excludes as [|e excludes];
    cbn [length Nat.ltb Nat.leb Nat.eqb andb orb negb existsb];
    try reflexivity;
    destruct (String.eqb "*" q || existsb (String.eqb "*") requested);
    cbn [negb orb andb]; rewrite ?andb_true_r; reflexivity.
Qed.

(** X22. [filterServices] keeps exactly the available services that
    are not excluded and that are requested, every service counting as
    requested when the request is empty or holds [*]; the services kept
    come in the order of the available ones. *)
Theorem filterServices_selection (requested available excludes : list string) :
  filterServices requested available excludes =
    List.filter
      (fun service =>
         (Nat.eqb (length requested) 0 || existsb (String.eqb "*") requested
          || existsb (String.eqb service) requested)
         && negb (existsb (String.eqb service) excludes))
      available
  /\ forall service,
       In service (filterServices requested available excludes) <->
       In service available /\ ~ In service excludes /\
       (requested = [] \/ In "*" requested \/ In service requested).
Proof.
  split; [apply filterServices_filter|]. intros service.
  rewrite filterServices_filter, filter_In.
  rewrite andb_true_iff, negb_true_iff, !orb_true_iff, !existsb_eqb_In, Nat.eqb_eq.
  rewrite <- not_true_iff_false, existsb_eqb_In.
  assert (Hlen : length requested = 0%nat <-> requested = [])
    by (destruct requested; simpl; split; congruence).
  rewrite Hlen. tauto.
Qed.

Lemma key_lookup {A : Type} (k : string) (o : props A) :
  In k (keys o) -> exists v, lookupProp k o = Some v.
Proof.
  unfold keys, entries. induction o as [|[k0 v0] o IH]; simpl; [contradiction|].
  intros [->|H].
  - rewrite String.eqb_refl. eauto.
  - destruct (String.eqb k0 k); eauto.
Qed.

(** X23. The orchestrator never asks the provider for a service it
    does not support: every service [filterServices] selects from the
    keys of the registry is found by [initService], whatever the request
    and the exclusions. *)
Theorem selected_services_are_supported
    (supportedServices : props ServiceKind) (requested excludes : list string)
    (serviceName : string) :
  In serviceName (filterServices requested (keys supportedServices) excludes) ->
  exists k, initService supportedServices serviceName = Some k.
Proof.
  intros H. rewrite filterServices_filter in H.
  apply filter_In in H as [H _]. now apply key_lookup.
Qed.

Lemma selected_services_are_supported_witness :
  filterServices ["route53"; "s3"; "iam"] (keys awsServices) ["iam"] = ["route53"] /\
  exists k, initService awsServices "route53" = Some k.
Proof.
  split; [reflexivity|].
  apply (selected_services_are_supported awsServices ["route53"; "s3"; "iam"] ["iam"]).
  left. reflexivity.
Defined.

(** X24. Without [verbose], the loop over the services never aborts: a
    service whose hook throws is skipped, and the run collects, in the
    order of the services, the resources of those whose hook returns. *)
Theorem importServices_skips_failures (options : ImportOptions)
    (services : list (ServiceKind * list TerraformResource))
    (allResources : list TerraformResource) :
  verbose options = false ->
  importServices options services allResources =
  Some (allResources ++
        flat_map (fun service =>
                    default [] (postConvertHook (fst service) (snd service)))
          services).
Proof.
  intros Hv. revert allResources.
  induction services as [|[k discovered] services IH]; intros allResources.
  - cbn [importServices flat_map]. now rewrite app_nil_r.
  - cbn [importServices flat_map fst snd].
    rewrite importService_ignores_filters.
    destruct (postConvertHook k discovered) as [rs|]; cbn [default].
    + now rewrite IH, <- app_assoc.
    + now rewrite Hv, IH.
Qed.

Lemma importServices_skips_failures_witness :
  importServices (mkOptions [] false true)
    [(IAMService, [withAttributes iamPolicy (literal [("policy", VNum 1)])]);
     (EC2Service, [instance1])] [] = Some [instance1].
Proof.
  exact (importServices_skips_failures (mkOptions [] false true) _ [] eq_refl).
Defined.

Lemma importServices_filters (fs fs' : list string) (v c : bool)
    (services : list (ServiceKind * list TerraformResource))
    (allResources : list TerraformResource) :
  importServices (mkOptions fs v c) services allResources =
  importServices (mkOptions fs' v c) services allResources.
Proof.
  revert allResources.
  induction services as [|[k discovered] services IH]; intros allResources;
    [reflexivity|].
  cbn [importServices]. rewrite !importService_ignores_filters.
  destruct (postConvertHook k discovered); cbn [verbose]; now rewrite ?IH.
Qed.

(** X25. The filter expressions have no effect on a run: two runs that
    differ only in their filters write the same files and the same state
    documents, or fail alike. *)
Theorem import_ignores_filters
    (RegExp : string -> option (string -> bool))
    (lineageOf : string -> string) (privateKeyOf : string -> nat -> string)
    (fs fs' : list string) (v c : bool)
    (services : list (ServiceKind * list TerraformResource)) :
  import RegExp lineageOf privateKeyOf (mkOptions fs v c) services =
  import RegExp lineageOf privateKeyOf (mkOptions fs' v c) services.
Proof.
  unfold import. rewrite (importServices_filters fs fs' v c services []).
  reflexivity.
Qed.

End OrchestratorMore.

(** ** Replacing the first occurrence *)

Section ReplaceFirst.

Lemma replaceFirstFrom_unfold (p template before s : string) :
  replaceFirstFrom p template before s =
  if String.prefix p s then
    getSubstitution p before (substring (String.length p) s) template
      +:+ substring (String.length p) s
  else match s with
       | EmptyString => EmptyString
       | String c t =>
           String c (replaceFirstFrom p template (before +:+ String c EmptyString) t)
       end.
Proof. destruct s; reflexivity. Qed.

(** At an occurrence. *)
Lemma replaceFirstFrom_here (p template before rest : string) :
  hasChar "$" template = false ->
  replaceFirstFrom p template before (p +:+ rest) = template +:+ rest.
Proof.
  intros Ht. rewrite replaceFirstFrom_unfold, prefix_append, substring_append.
  now rewrite getSubstitution_plain.
Qed.

(** Over a text that does not hold the first character of the pattern. *)
Lemma replaceFirstFrom_skip (c : ascii) (p template before a rest : string) :
  hasChar c a = false ->
  replaceFirstFrom (String c p) template before (a +:+ rest) =
  a +:+ replaceFirstFrom (String c p) template (before +:+ a) rest.
Proof.
  revert before; induction a as [|x a IH]; intros before Ha.
  - cbn [String.append]. now rewrite append_empty_r.
  - cbn [hasChar] in Ha. apply orb_false_iff in Ha as [Hx Ha].
    cbn [String.append]. rewrite replaceFirstFrom_unfold. cbn [String.prefix].
    destruct (ascii_dec c x) as [->|_]; [now rewrite Ascii.eqb_refl in Hx|].
    rewrite (IH _ Ha). now rewrite append_assoc.
Qed.

Lemma replaceFirst_at (c : ascii) (p template a rest : string) :
  hasChar "$" template = false ->
  hasChar c a = false ->
  replaceFirst (String c p) template (a +:+ String c p +:+ rest) =
  a +:+ template +:+ rest.
Proof.
  intros Ht Ha. unfold replaceFirst.
  now rewrite (replaceFirstFrom_skip c p template _ a _ Ha), replaceFirstFrom_here.
Qed.

Lemma replaceFirstFrom_absent (p template before s : string) :
  includes p s = false -> replaceFirstFrom p template before s = s.
Proof.
  revert before; induction s as [|x s IH]; intros before;
    rewrite includes_unfold, replaceFirstFrom_unfold; intros H;
    apply orb_false_iff in H as [Hp Hs]; rewrite Hp; [reflexivity|].
  now rewrite IH.
Qed.

(** X26. With the default pattern [{output}/{provider}/{service}/],
    the directory of a service is [<output>/<provider>/<service>/],
    provided the three names hold no dollar sign (which [replace] reads
    as a directive) and the output root and the provider hold no opening
    brace (where a later placeholder could be found). *)
Theorem default_service_path (output provider service : string) :
  hasChar "$" output = false ->
  hasChar "$" provider = false ->
  hasChar "$" service = false ->
  hasChar "{" output = false ->
  hasChar "{" provider = false ->
  serviceOutputPath defaultPathPattern output provider service =
  output +:+ "/" +:+ provider +:+ "/" +:+ service +:+ "/".
Proof.
  intros Ho Hp Hs Hbo Hbp.
  unfold serviceOutputPath, resolvePathPattern, entries.
  change (assignAll [] [("output", output); ("provider", provider); ("service", service)])
    with [("output", output); ("provider", provider); ("service", service)].
  cbn [fold_left fst snd].
  change ("{" +:+ "output" +:+ "}") with (String "{" "output}").
  change ("{" +:+ "provider" +:+ "}") with (String "{" "provider}").
  change ("{" +:+ "service" +:+ "}") with (String "{" "service}").
  change defaultPathPattern
    with (EmptyString +:+ String "{" "output}" +:+ "/{provider}/{service}/").
  rewrite (replaceFirst_at "{" "output}" output EmptyString _ Ho eq_refl).
  cbn [String.append].
  change (output +:+ "/{provider}/{service}/")
    with (output +:+ "/" +:+ String "{" "provider}" +:+ "/{service}/").
  rewrite <- (append_assoc output "/").
  rewrite (replaceFirst_at "{" "provider}" provider (output +:+ "/") _ Hp)
    by (now rewrite hasChar_append, Hbo).
  change ("/{service}/") with ("/" +:+ String "{" "service}" +:+ "/").
  rewrite <- (append_assoc provider "/"), <- (append_assoc (output +:+ "/")).
  rewrite (replaceFirst_at "{" "service}" service _ _ Hs)
    by (now rewrite !hasChar_append, Hbo, Hbp).
  now rewrite !append_assoc.
Qed.

Lemma default_service_path_witness :
  serviceOutputPath defaultPathPattern "generated" "aws" "route53_zone" =
  "generated/aws/route53_zone/".
Proof.
  exact (default_service_path "generated" "aws" "route53_zone"
           eq_refl eq_refl eq_refl eq_refl eq_refl).
Defined.

(** X27. The helpers of the Route53 adapter: [cleanZoneId] strips the
    prefix [/hostedzone/] and returns an id that does not hold it as it
    is; [wildcardUnescape] returns a name without a backslash as it is
    and, after a text without a backslash, turns the first escaped
    asterisk into an asterisk, leaving what follows, further escaped
    asterisks included, as it is. *)
Theorem route53_helpers (a b : string) :
  cleanZoneId ("/hostedzone/" +:+ b) = b /\
  (includes "/hostedzone/" a = false -> cleanZoneId a = a) /\
  (hasChar "\" a = false ->
   wildcardUnescape a = a /\
   wildcardUnescape (a +:+ "\052" +:+ b) = a +:+ "*" +:+ b).
Proof.
  split; [|split].
  - unfold cleanZoneId, replaceFirst.
    now rewrite (replaceFirstFrom_here "/hostedzone/" EmptyString EmptyString b eq_refl).
  - intros H. now apply replaceFirstFrom_absent.
  - intros H. split.
    + unfold wildcardUnescape.
      now rewrite (includes_missing_char "\" "\052" a eq_refl H).
    + unfold wildcardUnescape. rewrite includes_append.
      change "\052" with (String "\" "052").
      now apply replaceFirst_at.
Qed.

Lemma route53_helpers_witness :
  wildcardUnescape ("" +:+ "\052" +:+ ".example.com.\052") = "*.example.com.\052" /\
  cleanZoneId "/hostedzone/Z123" = "Z123".
Proof.
  split.
  - exact (proj2 (proj2 (proj2 (route53_helpers EmptyString ".example.com.\052")) eq_refl)).
  - exact (proj1 (route53_helpers EmptyString "Z123")).
Defined.

End ReplaceFirst.

(** ** One directory per type *)

Section Directories.






End Directories.

(** ** Health checks *)

Section HealthChecks.

(** X29. The Route53 hook leaves every health check as
    [loadHealthChecks] builds it untouched: there the threshold is the
    number of child health checks, or absent, so whenever the list of
    children is empty the threshold is falsy and nothing is deleted. *)
Theorem discovered_health_check_unchanged
    (st : list TerraformResource) (resource : TerraformResource)
    (children : list value) :
  res_type resource = "aws_route53_health_check" ->
  getProp "child_healthchecks" (additionalFields resource) = VArr children ->
  getProp "child_health_threshold" (additionalFields resource) =
    VNum (Z.of_nat (length children))
  \/ (getProp "child_health_threshold" (additionalFields resource) = VUndefined
      /\ children = []) ->
  route53Step st resource = resource.
Proof.
  intros Ht Hc Hth. rewrite route53Step_cases, Ht.
  cbn [String.eqb Ascii.eqb Bool.eqb]. unfold route53HealthCheck. rewrite Hc.
  cbn [truthy negb orb lengthIsZero].
  destruct Hth as [Hth|[Hth ->]]; rewrite Hth.
  - destruct children as [|c children]; [reflexivity|].
    cbn [length Nat.eqb]. reflexivity.
  - reflexivity.
Qed.

Lemma discovered_health_check_unchanged_witness :
  route53Step []
    (createResource "aws" "hc-1" "hc-1_HTTP" "route53_health_check" (literal [])
       (literal [("type", VStr "HTTP"); ("child_health_threshold", VNum 0);
                 ("child_healthchecks", VArr [])])) =
  createResource "aws" "hc-1" "hc-1_HTTP" "route53_health_check" (literal [])
    (literal [("type", VStr "HTTP"); ("child_health_threshold", VNum 0);
              ("child_healthchecks", VArr [])]).
Proof.
  apply (discovered_health_check_unchanged [] _ []).
  - reflexivity.
  - reflexivity.
  - left. reflexivity.
Defined.

End HealthChecks.
